(** * polymarket-trader: the strategy SDK and the market-maker example

    A shallow embedding of [python_strategies/sdk/__init__.py] and of
    [python_strategies/examples/market_maker.py], with the properties of
    the pending-order queue and of the market maker's risk check.

    Numbers.  A number is a Python [int], an integer of any size, or a
    Python [float], an IEEE 754 binary64 value with its signed zeros, its
    infinities and NaN.  Arithmetic on two ints is exact; any other
    arithmetic converts an int operand to the nearest float and rounds the
    result to the nearest float, ties to even.  Comparisons are made on
    the exact values, as Python makes them also between an int and a
    float, and every ordering and equality test with a NaN is false.
    [bool], a subclass of [int], is not among the values.

    Exceptions.  A Python expression that raises is [Raise e]; one that
    returns is [Ok v].  An int too large for a float raises
    [OverflowError] where it is converted, and so does a true division of
    ints whose quotient is too large; a division by zero raises
    [ZeroDivisionError].  Arithmetic and ordering are defined on numbers
    only: an operand that is [None] or a string raises [TypeError].
    Sizes, prices, balances and limits are numbers in the SDK's
    declarations; Python also concatenates two strings, repeats a string
    an int number of times and orders two strings, which the embedding
    does not follow.

    Logging.  [log] prints one line and returns [None]; it influences no
    result, and the embedding leaves the printed text out.  [on_tick],
    whose only output is a log line, reports whether it prints it. *)

From Stdlib Require Import ZArith QArith Qround Qabs.
From Stdlib Require Import Floats.SpecFloat.
From stdpp Require Import gmap strings.

Open Scope string_scope.
Open Scope list_scope.

(** ** Python values and exceptions *)

Inductive exn :=
| TypeError
| AttributeError
| ValueError
| ZeroDivisionError
| OverflowError.

Inductive result (A : Type) :=
| Ok (a : A)
| Raise (e : exn).
Arguments Ok {A} a.
Arguments Raise {A} e.

#[global] Instance result_ret : MRet result := @Ok.
#[global] Instance result_bind : MBind result := λ A B k r,
  match r with
  | Ok a => k a
  | Raise e => Raise e
  end.

(** ** Numbers *)

(** binary64: 53 bits of precision, infinities at exponent 1024. *)
Definition prec : Z := 53.
Definition emax : Z := 1024.

Definition fadd : spec_float → spec_float → spec_float := SFadd prec emax.
Definition fsub : spec_float → spec_float → spec_float := SFsub prec emax.
Definition fmul : spec_float → spec_float → spec_float := SFmul prec emax.
Definition fdiv : spec_float → spec_float → spec_float := SFdiv prec emax.

(** [float(z)]: the float nearest to an int, an infinity when the int is
    beyond the largest float. *)
Definition float_of_int (z : Z) : spec_float :=
  binary_normalize prec emax z 0 false.

(** An int as the operand of a correctly rounded division: the mantissa is
    the int itself, of any length. *)
Definition exact_float (z : Z) : spec_float :=
  match z with
  | Z0 => S754_zero false
  | Zpos p => S754_finite false p 0
  | Zneg p => S754_finite true p 0
  end.

(** The float written as the decimal literal n / 10^k: the float nearest
    to that rational.  [decimal 2 2] is the literal [0.02]. *)
Definition decimal (n : Z) (k : nat) : spec_float :=
  fdiv (exact_float n) (exact_float (10 ^ Z.of_nat k)).
Arguments decimal : simpl never.

Inductive num :=
| NInt (z : Z)
| NFloat (f : spec_float).

(** The exact value of a number. *)
Inductive xval :=
| XNaN
| XInf (negative : bool)
| XFin (q : Q).

Definition float_value (f : spec_float) : xval :=
  match f with
  | S754_zero _ => XFin 0
  | S754_infinity s => XInf s
  | S754_nan => XNaN
  | S754_finite s m e => XFin (inject_Z (cond_Zopp s (Zpos m)) * 2 ^ e)
  end.

Definition num_value (n : num) : xval :=
  match n with
  | NInt z => XFin (inject_Z z)
  | NFloat f => float_value f
  end.

(** The order of two exact values; a NaN is not ordered with anything. *)
Definition xcompare (a b : xval) : option comparison :=
  match a, b with
  | XNaN, _ | _, XNaN => None
  | XFin p, XFin q => Some (p ?= q)%Q
  | XInf s, XInf t =>
      Some (if s then if t then Eq else Lt else if t then Gt else Eq)
  | XInf s, XFin _ => Some (if s then Lt else Gt)
  | XFin _, XInf t => Some (if t then Gt else Lt)
  end.

Definition num_compare (a b : num) : option comparison :=
  xcompare (num_value a) (num_value b).

(** [a < b], [a <= b] and [a == b] on numbers. *)
Definition num_ltb (a b : num) : bool :=
  match num_compare a b with
  | Some Lt => true
  | _ => false
  end.

Definition num_leb (a b : num) : bool :=
  match num_compare a b with
  | Some Lt | Some Eq => true
  | _ => false
  end.

Definition num_eqb (a b : num) : bool :=
  match num_compare a b with
  | Some Eq => true
  | _ => false
  end.

Definition is_nan (a : num) : bool :=
  match num_value a with
  | XNaN => true
  | _ => false
  end.

(** The scalars held by the fields of an order, a position or a market:
    [None], a number, a string. *)
Inductive atom :=
| ANone
| ANum (n : num)
| AStr (s : string).

(** An int literal, and the float literal n / 10^k: [int 10] is [10] and
    [flt 45 2] is [0.45]. *)
Abbreviation int z := (ANum (NInt z)).
Abbreviation flt n k := (ANum (NFloat (decimal n k))).

(** A Python [dict] with string keys and scalar values. *)
Abbreviation dict := (gmap string atom).

(** [d.get(key, default)]; [d.get(key)] is [dict_get d key ANone]. *)
Definition dict_get (d : dict) (key : string) (dflt : atom) : atom :=
  default dflt (d !! key).

(** [a == b] on scalars. *)
Definition py_eq (a b : atom) : bool :=
  match a, b with
  | ANone, ANone => true
  | ANum p, ANum q => num_eqb p q
  | AStr s, AStr t => String.eqb s t
  | _, _ => false
  end.

(** The float operand that an arithmetic operation makes of a number. *)
Definition to_float (n : num) : result spec_float :=
  match n with
  | NFloat f => Ok f
  | NInt z =>
      match float_of_int z with
      | S754_infinity _ => Raise OverflowError
      | f => Ok f
      end
  end.

(** [a + b], [a - b] and [a * b]: exact on two ints, and on floats
    otherwise, the left operand converted first. *)
Definition num_op (int_op : Z → Z → Z)
    (float_op : spec_float → spec_float → spec_float) (a b : atom)
    : result atom :=
  match a, b with
  | ANum (NInt x), ANum (NInt y) => Ok (ANum (NInt (int_op x y)))
  | ANum p, ANum q =>
      x ← to_float p;
      y ← to_float q;
      Ok (ANum (NFloat (float_op x y)))
  | _, _ => Raise TypeError
  end.

Definition py_add : atom → atom → result atom := num_op Z.add fadd.
Definition py_sub : atom → atom → result atom := num_op Z.sub fsub.
Definition py_mul : atom → atom → result atom := num_op Z.mul fmul.

(** [a / b]: true division.  Of two ints it is the float nearest to the
    exact quotient. *)
Definition py_div (a b : atom) : result atom :=
  match a, b with
  | ANum (NInt x), ANum (NInt y) =>
      if (y =? 0)%Z then Raise ZeroDivisionError
      else
        match fdiv (exact_float x) (exact_float y) with
        | S754_infinity _ => Raise OverflowError
        | f => Ok (ANum (NFloat f))
        end
  | ANum p, ANum q =>
      x ← to_float p;
      y ← to_float q;
      match y with
      | S754_zero _ => Raise ZeroDivisionError
      | _ => Ok (ANum (NFloat (fdiv x y)))
      end
  | _, _ => Raise TypeError
  end.

Definition num_cmp (f : num → num → bool) (a b : atom) : result bool :=
  match a, b with
  | ANum p, ANum q => Ok (f p q)
  | _, _ => Raise TypeError
  end.

Definition py_lt : atom → atom → result bool := num_cmp num_ltb.
Definition py_gt : atom → atom → result bool :=
  num_cmp (λ p q, num_ltb q p).
Definition py_ge : atom → atom → result bool :=
  num_cmp (λ p q, num_leb q p).

(** [min(a, b)]: the first argument unless the second is smaller. *)
Definition py_min (a b : atom) : result atom :=
  lt ← py_lt b a; Ok (if lt : bool then b else a).

(** Nearest integer, ties to the even one. *)
Definition round_half_even (q : Q) : Z :=
  let f := Qfloor q in
  match (q - inject_Z f ?= 1 # 2)%Q with
  | Lt => f
  | Eq => if Z.even f then f else (f + 1)%Z
  | Gt => (f + 1)%Z
  end.

(** [round(x, ndigits)] of a float: the float nearest to the decimal with
    [ndigits] digits after the point that is nearest to the exact value of
    [x], ties to the even digit; a zero keeps the sign of [x]. *)
Definition float_round (f : spec_float) (ndigits : nat) : spec_float :=
  match f with
  | S754_finite s m e =>
      let scale := (10 ^ Z.of_nat ndigits)%Z in
      let exact := (inject_Z (cond_Zopp s (Zpos m)) * 2 ^ e)%Q in
      match round_half_even (exact * inject_Z scale) with
      | Z0 => S754_zero s
      | r => fdiv (exact_float r) (exact_float scale)
      end
  | _ => f
  end.

(** [round(x, ndigits)]; an int is its own rounding for [ndigits >= 0]. *)
Definition py_round (a : atom) (ndigits : nat) : result atom :=
  match a with
  | ANum (NInt z) => Ok (ANum (NInt z))
  | ANum (NFloat f) => Ok (ANum (NFloat (float_round f ndigits)))
  | _ => Raise TypeError
  end.
(** ** sdk/__init__.py *)

Inductive OrderSide := BUY | SELL.

Inductive OrderType := MARKET | LIMIT | GTC | GTD | FOK | FAK.

(** [OrderSide(value)] and [OrderType(value)]: lookup of an enum member by
    its value; an unknown value raises [ValueError]. *)
Definition OrderSide_of (value : string) : result OrderSide :=
  if String.eqb value "BUY" then Ok BUY
  else if String.eqb value "SELL" then Ok SELL
  else Raise ValueError.

Definition OrderType_of (value : string) : result OrderType :=
  if String.eqb value "MARKET" then Ok MARKET
  else if String.eqb value "LIMIT" then Ok LIMIT
  else if String.eqb value "GTC" then Ok GTC
  else if String.eqb value "GTD" then Ok GTD
  else if String.eqb value "FOK" then Ok FOK
  else if String.eqb value "FAK" then Ok FAK
  else Raise ValueError.

(** The [Order] dataclass; [price] is [Optional[float]] with default
    [None]. *)
Record Order := {
  order_market_id : string;
  order_token_id : string;
  order_side : OrderSide;
  order_type : OrderType;
  order_size : num;
  order_price : option num
}.

(** The value of an [Optional[float]] as a scalar. *)
Definition optional_num (o : option num) : atom :=
  match o with
  | Some n => ANum n
  | None => ANone
  end.

(** What [Trading.place_order] returns: [{"queued": ..., "order": {...}}]. *)
Record Receipt := {
  queued : bool;
  order : dict
}.

(** The objects found in a positions list.  [get_position] reads
    [pos.market_id], an attribute, and the market maker then calls
    [position.get('size', 0)], a mapping method.  A plain [dict] has the
    method and not the attribute, an instance of the [Position] dataclass
    has the attribute and not the method, and a mapping that also exposes
    its keys as attributes has both. *)
Inductive shape := PlainDict | Dataclass | AttrMapping.

Record pyobject := {
  shape_of : shape;
  entries : dict
}.

(** [obj.name] *)
Definition getattr (obj : pyobject) (name : string) : result atom :=
  match shape_of obj with
  | PlainDict => Raise AttributeError
  | Dataclass | AttrMapping =>
      match entries obj !! name with
      | Some v => Ok v
      | None => Raise AttributeError
      end
  end.

(** [obj.get(key, default)] *)
Definition obj_get (obj : pyobject) (key : string) (dflt : atom)
    : result atom :=
  match shape_of obj with
  | Dataclass => Raise AttributeError
  | PlainDict | AttrMapping => Ok (dict_get (entries obj) key dflt)
  end.

(** Truth value of an object: a mapping is true when it is not empty, a
    dataclass instance always. *)
Definition truthy (obj : pyobject) : bool :=
  match shape_of obj with
  | Dataclass => true
  | PlainDict | AttrMapping => negb (bool_decide (entries obj = ∅))
  end.

Module Trading.

(** The class attribute [_pending_orders]; every method takes the list
    and returns the new one. *)

(** The ["order"] entry of the dict that [place_order] returns. *)
Definition order_details (market_id side order_type : string)
    (size : num) (price : option num) : dict :=
  <["market_id" := AStr market_id]> (
  <["side" := AStr side]> (
  <["type" := AStr order_type]> (
  <["size" := ANum size]> (
  <["price" := optional_num price]> ∅)))).

Definition place_order (market_id token_id side order_type : string)
    (size : num) (price : option num)
    (_pending_orders : list Order) : list Order * result Receipt :=
  match OrderSide_of side with
  | Raise e => (_pending_orders, Raise e)
  | Ok s =>
      match OrderType_of order_type with
      | Raise e => (_pending_orders, Raise e)
      | Ok t =>
          let order :=
            {| order_market_id := market_id;
               order_token_id := token_id;
               order_side := s;
               order_type := t;
               order_size := size;
               order_price := price |} in
          (_pending_orders ++ [order],
           Ok {| queued := true;
                 order := order_details market_id side order_type size price |})
      end
  end.

(** A copy of the list. *)
Definition get_pending_orders (_pending_orders : list Order) : list Order :=
  _pending_orders.

Definition clear_pending_orders (_pending_orders : list Order) : list Order :=
  [].

End Trading.

(** [get_position(positions, market_id)]: the first position of the
    market, or [None]. *)
Fixpoint get_position (positions : list pyobject) (market_id : atom)
    : result (option pyobject) :=
  match positions with
  | [] => Ok None
  | pos :: rest =>
      m ← getattr pos "market_id";
      if py_eq m market_id then Ok (Some pos) else get_position rest market_id
  end.

(** [buy] and [sell]; [order_type = None] stands for a call that leaves
    the keyword out, so that its default applies. *)
Definition buy (market_id token_id : string) (size : num) (price : option num)
    (order_type : option string) :=
  Trading.place_order market_id token_id "BUY" (default "LIMIT" order_type)
    size price.

Definition sell (market_id token_id : string) (size : num) (price : option num)
    (order_type : option string) :=
  Trading.place_order market_id token_id "SELL" (default "MARKET" order_type)
    size price.

(** ** examples/market_maker.py *)

(** The module globals that [initialize] rebinds.  [REFRESH_THRESHOLD] and
    [_last_prices] are read and written by [on_tick] only. *)
Record Globals := {
  SPREAD_PERCENT : atom;
  ORDER_SIZE : atom;
  MAX_POSITION : atom
}.

(** Their values when the module is loaded. *)
Definition module_globals : Globals :=
  {| SPREAD_PERCENT := flt 2 2;
     ORDER_SIZE := int 10;
     MAX_POSITION := int 100 |}.

Definition initialize (config : dict) (g : Globals) : Globals :=
  {| SPREAD_PERCENT := dict_get config "spread_percent" (SPREAD_PERCENT g);
     ORDER_SIZE := dict_get config "order_size" (ORDER_SIZE g);
     MAX_POSITION := dict_get config "max_position" (MAX_POSITION g) |}.

(** The [parameters] dict of a context; the strategy reads one key. *)
Record Parameters := {
  market_ids : option (list atom)
}.

(** The context dict.  A field is [None] when the dict lacks the key, and
    the default of the [get] that reads it applies. *)
Record Context := {
  parameters : option Parameters;
  positions : option (list pyobject);
  balance : option atom;
  market_data : option (gmap string dict)
}.

(** [market_data.get(market_id)]: the keys of [market_data] are strings,
    so that no other scalar is found. *)
Definition market_data_get (md : gmap string dict) (market_id : atom)
    : option dict :=
  match market_id with
  | AStr s => md !! s
  | _ => None
  end.

(** [position.get('size', 0) if position else 0] *)
Definition size_of_position (position : option pyobject) : result atom :=
  match position with
  | Some p => if truthy p then obj_get p "size" (int 0) else Ok (int 0)
  | None => Ok (int 0)
  end.

(** The first three statements of [risk_check], which [propose_orders]
    repeats for each market: the size held in a market. *)
Definition current_size (positions : list pyobject) (market_id : atom)
    : result atom :=
  position ← get_position positions market_id;
  size_of_position position.

(** The dict literal of a proposed order. *)
Definition limit_order (market_id token_id : atom) (side : string)
    (size price : atom) : dict :=
  <["market_id" := market_id]> (
  <["token_id" := token_id]> (
  <["side" := AStr side]> (
  <["type" := AStr "LIMIT"]> (
  <["size" := size]> (
  <["price" := price]> ∅))))).

(** The body of the loop of [propose_orders] for one market that has
    data: the orders list after the iteration. *)
Definition quote_market (g : Globals) (positions : list pyobject)
    (balance : atom) (market_id : atom) (market : dict)
    (orders : list dict) : result (list dict) :=
  current_size ← current_size positions market_id;
  let midpoint := dict_get market "midpoint" (flt 5 1) in
  let spread := dict_get market "spread" (flt 1 1) in
  below ← py_sub (int 1) (SPREAD_PERCENT g);
  buy_price ← py_mul midpoint below;
  above ← py_add (int 1) (SPREAD_PERCENT g);
  sell_price ← py_mul midpoint above;
  width ← py_sub sell_price buy_price;
  narrow ← py_lt width spread;
  quotes ←
    (if narrow : bool then
       half ← py_div spread (int 2);
       buy_price ← py_sub midpoint half;
       half ← py_div spread (int 2);
       sell_price ← py_add midpoint half;
       Ok (buy_price, sell_price)
     else Ok (buy_price, sell_price));
  let buy_price := quotes.1 in
  let sell_price := quotes.2 in
  room ← py_lt current_size (MAX_POSITION g);
  orders ←
    (if room : bool then
       headroom ← py_sub (MAX_POSITION g) current_size;
       buy_size ← py_min (ORDER_SIZE g) headroom;
       positive ← py_gt buy_size (int 0);
       if positive : bool then
         cost ← py_mul buy_size buy_price;
         funded ← py_ge balance cost;
         if funded : bool then
           price ← py_round buy_price 4;
           Ok (orders ++
               [limit_order market_id (dict_get market "token_id" ANone)
                  "BUY" buy_size price])
         else Ok orders
       else Ok orders
     else Ok orders);
  held ← py_gt current_size (int 0);
  if held : bool then
    sell_size ← py_min (ORDER_SIZE g) current_size;
    price ← py_round sell_price 4;
    Ok (orders ++
        [limit_order market_id (dict_get market "token_id" ANone)
           "SELL" sell_size price])
  else Ok orders.

(** The loop of [propose_orders]; a market without data, or whose data is
    an empty dict, is skipped. *)
Fixpoint propose_loop (g : Globals) (positions : list pyobject)
    (balance : atom) (market_data : gmap string dict)
    (target_markets : list atom) (orders : list dict) : result (list dict) :=
  match target_markets with
  | [] => Ok orders
  | market_id :: rest =>
      match market_data_get market_data market_id with
      | None => propose_loop g positions balance market_data rest orders
      | Some market =>
          if bool_decide (market = ∅)
          then propose_loop g positions balance market_data rest orders
          else
            orders ← quote_market g positions balance market_id market orders;
            propose_loop g positions balance market_data rest orders
      end
  end.

Definition propose_orders (g : Globals) (context : Context)
    : result (list dict) :=
  let target_markets :=
    default []
      (market_ids (default {| market_ids := None |} (parameters context))) in
  let positions := default [] (positions context) in
  let balance := default (int 0) (balance context) in
  let market_data := default ∅ (market_data context) in
  propose_loop g positions balance market_data target_markets [].

Definition risk_check (g : Globals) (order : dict) (context : Context)
    : result bool :=
  let positions := default [] (positions context) in
  current_size ← current_size positions (dict_get order "market_id" ANone);
  over ←
    (if py_eq (dict_get order "side" ANone) (AStr "BUY") then
       total ← py_add current_size (dict_get order "size" (int 0));
       py_gt total (MAX_POSITION g)
     else Ok false);
  if over : bool then Ok false else
  short ←
    (if py_eq (dict_get order "side" ANone) (AStr "SELL") then
       py_gt (dict_get order "size" (int 0)) current_size
     else Ok false);
  if short : bool then Ok false else
  let price := dict_get order "price" (int 0) in
  low ← py_lt price (flt 1 2);
  if low : bool then Ok false else
  high ← py_gt price (flt 99 2);
  if high : bool then Ok false else
  Ok true.

(** ** The host's use of the queue *)

(** A drain of the queue, as the executor performs it:
    [get_pending_orders] and then [clear_pending_orders].  The result is
    the delivered list and the queue left behind. *)
Definition drain (_pending_orders : list Order) : list Order * list Order :=
  (Trading.get_pending_orders _pending_orders,
   Trading.clear_pending_orders _pending_orders).

(** One call of a strategy into the SDK's order entry points. *)
Inductive call :=
| PlaceOrder (market_id token_id side order_type : string)
    (size : num) (price : option num)
| Buy (market_id token_id : string) (size : num) (price : option num)
    (order_type : option string)
| Sell (market_id token_id : string) (size : num) (price : option num)
    (order_type : option string).

Definition run_call (c : call) : list Order → list Order * result Receipt :=
  match c with
  | PlaceOrder m t s ty size price => Trading.place_order m t s ty size price
  | Buy m t size price ty => buy m t size price ty
  | Sell m t size price ty => sell m t size price ty
  end.

(** A sequence of calls, each on the queue that the previous one left; a
    call that raises leaves the queue as it found it. *)
Definition run_calls (cs : list call) (_pending_orders : list Order)
    : list Order :=
  fold_left (λ q c, (run_call c q).1) cs _pending_orders.

(** The [Order] that a call constructs, when the side and the order type
    name enum members. *)
Definition make_order (market_id token_id side order_type : string)
    (size : num) (price : option num) : option Order :=
  match OrderSide_of side, OrderType_of order_type with
  | Ok s, Ok t =>
      Some {| order_market_id := market_id;
              order_token_id := token_id;
              order_side := s;
              order_type := t;
              order_size := size;
              order_price := price |}
  | _, _ => None
  end.

Definition order_of_call (c : call) : option Order :=
  match c with
  | PlaceOrder m t s ty size price => make_order m t s ty size price
  | Buy m t size price ty =>
      make_order m t "BUY" (default "LIMIT" ty) size price
  | Sell m t size price ty =>
      make_order m t "SELL" (default "MARKET" ty) size price
  end.

(** ** Notions of the specification *)

(** A malformed order, in the words of the specification: a size that is
    not positive, or no price on an order whose type is not MARKET. *)
Definition malformed (o : Order) : bool :=
  num_leb (order_size o) (NInt 0) ||
  (match order_price o with None => true | Some _ => false end &&
   match order_type o with MARKET => false | _ => true end).

(** The size held in a market, in the words of the specification: the
    size of the position of the context whose market is the order's, and 0
    when there is none.  Among several positions of one market the first
    counts, as in [get_position]. *)
Definition in_market (market_id : atom) (pos : pyobject) : bool :=
  match entries pos !! "market_id" with
  | Some m => py_eq m market_id
  | None => false
  end.

Definition held_size (positions : list pyobject) (market_id : atom) : atom :=
  match find (in_market market_id) positions with
  | Some pos => dict_get (entries pos) "size" (int 0)
  | None => int 0
  end.

(** ** Scenarios *)

(** A context with no position; [b] is the balance. *)
Definition flat_context (b : num) : Context :=
  {| parameters := Some {| market_ids := Some [AStr "m1"] |};
     positions := Some [];
     balance := Some (ANum b);
     market_data := Some ∅ |}.

(** One target market at midpoint 0.50 with spread 0.10, no position,
    balance 100. *)
Definition quiet_market : dict :=
  <["market_id" := AStr "m1"]> (
  <["token_id" := AStr "t1"]> (
  <["bid" := flt 45 2]> (
  <["ask" := flt 55 2]> (
  <["midpoint" := flt 5 1]> (
  <["spread" := flt 1 1]> (
  <["volume" := int 1000]> ∅)))))).

Definition quiet_context : Context :=
  {| parameters := Some {| market_ids := Some [AStr "m1"] |};
     positions := Some [];
     balance := Some (int 100);
     market_data := Some (<["m1" := quiet_market]> ∅) |}.

(** A position of the given shape and size in market m1. *)
Definition holding (sh : shape) (size : num) : pyobject :=
  {| shape_of := sh;
     entries :=
       <["market_id" := AStr "m1"]> (
       <["token_id" := AStr "t1"]> (
       <["size" := ANum size]> (
       <["avg_entry_price" := flt 5 1]> ∅))) |}.

Definition holding_context (sh : shape) (size : num) : Context :=
  {| parameters := Some {| market_ids := Some [AStr "m1"] |};
     positions := Some [holding sh size];
     balance := Some (int 100);
     market_data := Some (<["m1" := quiet_market]> ∅) |}.

(** An order dict as a strategy or the host writes it. *)
Definition order_dict (side type : string) (size : num) (price : option num)
    : dict :=
  <["market_id" := AStr "m1"]> (
  <["token_id" := AStr "t1"]> (
  <["side" := AStr side]> (
  <["type" := AStr type]> (
  <["size" := ANum size]>
    match price with
    | Some p => <["price" := ANum p]> ∅
    | None => ∅
    end)))).

(** An order with size 0 and no price on a GTC type, and one with size -5
    and no price on a LIMIT type. *)
Definition empty_gtc_sell : Order :=
  {| order_market_id := "m1"; order_token_id := "t1";
     order_side := SELL; order_type := GTC;
     order_size := NInt 0; order_price := None |}.

Definition negative_limit_buy : Order :=
  {| order_market_id := "m1"; order_token_id := "t1";
     order_side := BUY; order_type := LIMIT;
     order_size := NInt (-5); order_price := None |}.

(** A FOK SELL of size 3 at price 0.4, and the dict that [place_order]
    reports for it. *)
Definition fok_sell : Order :=
  {| order_market_id := "m1"; order_token_id := "t1";
     order_side := SELL; order_type := FOK;
     order_size := NInt 3; order_price := Some (NFloat (decimal 4 1)) |}.

Definition fok_sell_details : dict :=
  Trading.order_details "m1" "SELL" "FOK" (NInt 3)
    (Some (NFloat (decimal 4 1))).

(** The dict that [place_order] reports for a BUY at price 1.5. *)
Definition overpriced_buy : dict :=
  Trading.order_details "m1" "BUY" "LIMIT" (NInt 10)
    (Some (NFloat (decimal 15 1))).

(** The context with another balance. *)
Definition with_balance (b : option atom) (context : Context) : Context :=
  {| parameters := parameters context;
     positions := positions context;
     balance := b;
     market_data := market_data context |}.

(** ** The rest of sdk/__init__.py *)

(** [member.value] *)
Definition OrderSide_value (s : OrderSide) : string :=
  match s with
  | BUY => "BUY"
  | SELL => "SELL"
  end.

Definition OrderType_value (t : OrderType) : string :=
  match t with
  | MARKET => "MARKET"
  | LIMIT => "LIMIT"
  | GTC => "GTC"
  | GTD => "GTD"
  | FOK => "FOK"
  | FAK => "FAK"
  end.

(** The [MarketState] dataclass. *)
Record MarketState := {
  state_market_id : string;
  state_token_id : string;
  state_bid : num;
  state_ask : num;
  state_midpoint : num;
  state_spread : num;
  state_volume : num;
  state_last_price : option num
}.

Module MarketData.

(** The class attribute [_data] is an argument of every method. *)

Definition get (_data : gmap string MarketState) (market_id : string)
    : option MarketState :=
  _data !! market_id.

(** A copy of the dict. *)
Definition get_all (_data : gmap string MarketState)
    : gmap string MarketState :=
  _data.

(** The dict [{"bids": ..., "asks": ...}]; a level is the list
    [[price, size]]. *)
Record OrderBook := {
  bids : list (list num);
  asks : list (list num)
}.

(** An instance of a dataclass is true, so that [not market] holds for
    [None] only. *)
Definition orderbook (_data : gmap string MarketState) (market_id : string)
    : OrderBook :=
  match _data !! market_id with
  | None => {| bids := []; asks := [] |}
  | Some market =>
      {| bids := [[state_bid market; NInt 100]];
         asks := [[state_ask market; NInt 100]] |}
  end.

End MarketData.

Definition get_market (_data : gmap string MarketState) (market_id : string)
    : option MarketState :=
  MarketData.get _data market_id.

(** ** The rest of examples/market_maker.py *)

Definition REFRESH_THRESHOLD : atom := flt 1 2.

(** Truth value of a scalar. *)
Definition atom_truthy (a : atom) : bool :=
  match a with
  | ANone => false
  | ANum (NInt z) => negb (z =? 0)%Z
  | ANum (NFloat (S754_zero _)) => false
  | ANum (NFloat _) => true
  | AStr s => negb (String.eqb s "")
  end.

(** [abs(a)] *)
Definition py_abs (a : atom) : result atom :=
  match a with
  | ANum (NInt z) => Ok (ANum (NInt (Z.abs z)))
  | ANum (NFloat f) => Ok (ANum (NFloat (SFabs f)))
  | _ => Raise TypeError
  end.

(** The dict [_last_prices].  Its keys are the values found under
    ['market_id'], any scalar; it is kept as the list of its items, in the
    order of their insertion.  A dict finds a key that is the same object
    as the one looked for, or [==] to it.  The embedding has values and no
    objects, and takes the same value for the same object: [on_tick] looks
    up and stores under one object, the one it read from the market
    state.  The two differ for NaN keys only, which are equal to nothing
    and different keys when they are different objects. *)
Definition same_key (a b : atom) : bool :=
  match a, b with
  | ANum (NFloat S754_nan), ANum (NFloat S754_nan) => true
  | _, _ => py_eq a b
  end.

Fixpoint items_get (items : list (atom * atom)) (key : atom) : option atom :=
  match items with
  | [] => None
  | (k, v) :: rest => if same_key k key then Some v else items_get rest key
  end.

(** [items[key] = value] *)
Fixpoint items_set (items : list (atom * atom)) (key value : atom)
    : list (atom * atom) :=
  match items with
  | [] => [(key, value)]
  | (k, v) :: rest =>
      if same_key k key then (k, value) :: rest
      else (k, v) :: items_set rest key value
  end.

(** [on_tick]: the new [_last_prices], and whether the "Price moved" line
    is logged.  An exception leaves [_last_prices] as it was, the store
    being the last statement. *)
Definition on_tick (market_state : dict) (_last_prices : list (atom * atom))
    : list (atom * atom) * result bool :=
  let market_id := dict_get market_state "market_id" ANone in
  let midpoint := dict_get market_state "midpoint" (flt 5 1) in
  let logged :=
    match items_get _last_prices market_id with
    | Some last_price =>
        if atom_truthy last_price then
          moved ← py_sub midpoint last_price;
          distance ← py_abs moved;
          change ← py_div distance last_price;
          py_gt change REFRESH_THRESHOLD
        else Ok false
    | None => Ok false
    end in
  match logged with
  | Ok b => (items_set _last_prices market_id midpoint, Ok b)
  | Raise e => (_last_prices, Raise e)
  end.

(** [not (not market)] for the market that [market_data.get(market_id)]
    finds: the test under which the loop of [propose_orders] goes on with
    a market. *)
Definition has_data (market_data : gmap string dict) (market_id : atom)
    : bool :=
  match market_data_get market_data market_id with
  | Some market => negb (bool_decide (market = ∅))
  | None => false
  end.

(** The first statement of [propose_orders]: the target markets. *)
Definition target_markets (context : Context) : list atom :=
  default []
    (market_ids (default {| market_ids := None |} (parameters context))).

(** The quotes for the quiet market when a position is held: a BUY at 0.45
    and a SELL at 0.55, of size 10 each. *)
Definition quiet_buy : dict :=
  limit_order (AStr "m1") (AStr "t1") "BUY" (int 10) (flt 45 2).

Definition quiet_sell : dict :=
  limit_order (AStr "m1") (AStr "t1") "SELL" (int 10) (flt 55 2).

(** The quiet context with two more targets, a market without data and
    [None]. *)
Definition quiet_context_with_strangers : Context :=
  {| parameters :=
       Some {| market_ids := Some [AStr "m0"; AStr "m1"; ANone] |};
     positions := Some [];
     balance := Some (int 100);
     market_data := Some (<["m1" := quiet_market]> ∅) |}.

(** ** Inputs that raise nothing *)

Definition is_num (a : atom) : Prop := ∃ n : num, a = ANum n.

Definition is_float (a : atom) : Prop :=
  ∃ f : spec_float, a = ANum (NFloat f).

(** A number that arithmetic takes as a float operand without raising: a
    float, or an int that is not beyond the largest float. *)
Definition has_float (a : atom) : Prop :=
  ∃ (n : num) (f : spec_float), a = ANum n ∧ to_float n = Ok f.

(** A position that [get_position] and the market maker can both read: it
    has the attribute [market_id] and the method [get], which neither a
    plain dict nor an instance of the SDK's [Position] dataclass has.  Its
    size, if it has one, is a float. *)
Definition readable_position (pos : pyobject) : Prop :=
  shape_of pos = AttrMapping ∧
  is_Some (entries pos !! "market_id") ∧
  (entries pos !! "size" = None ∨
   ∃ size, entries pos !! "size" = Some size ∧ is_float size).

(** A market whose midpoint and spread, where it has them, are floats. *)
Definition float_market (market : dict) : Prop :=
  is_float (dict_get market "midpoint" (flt 5 1)) ∧
  is_float (dict_get market "spread" (flt 1 1)).

(** Parameters of which [SPREAD_PERCENT] is a float, and [ORDER_SIZE] and
    [MAX_POSITION] are floats or ints that have a float. *)
Definition float_globals (g : Globals) : Prop :=
  is_float (SPREAD_PERCENT g) ∧
  has_float (ORDER_SIZE g) ∧
  has_float (MAX_POSITION g).

(** * Properties *)

(** ** The result monad and the numeric operations *)

Lemma bind_Ok {A B} (r : result A) (k : A → result B) (b : B) :
  r ≫= k = Ok b → ∃ a, r = Ok a ∧ k a = Ok b.
Proof. destruct r as [a|e]; simpl; [eauto | discriminate]. Qed.

Lemma xcompare_antisym a b : xcompare b a = CompOpp <$> xcompare a b.
Proof.
  destruct a as [|s|p], b as [|t|q]; simpl; try done.
  - by destruct s, t.
  - by destruct s.
  - by destruct t.
  - by rewrite Qcompare_antisym.
Qed.

Lemma xcompare_refl a : xcompare a a = None ∨ xcompare a a = Some Eq.
Proof.
  destruct a as [|s|p]; simpl; auto; right.
  - by destruct s.
  - f_equal. by apply Qeq_alt.
Qed.

Lemma xcompare_trans a b c :
  xcompare a b = Some Lt →
  xcompare b c = Some Lt ∨ xcompare b c = Some Eq →
  xcompare a c = Some Lt.
Proof.
  destruct a as [|s|p], b as [|t|q], c as [|u|r]; simpl; intros H1 H2;
    try discriminate; try (destruct H2; discriminate);
    repeat match goal with x : bool |- _ => destruct x end;
    try done; try (destruct H2; done).
  injection H1 as H1. f_equal. apply Qlt_alt. apply Qlt_alt in H1.
  destruct H2 as [[= H2] | [= H2]].
  - apply Qlt_alt in H2. by apply Qlt_trans with q.
  - apply Qeq_alt in H2. by rewrite <- H2.
Qed.

(** Two numbers of which the second is not below the first are in order,
    unless one is a NaN. *)
Lemma num_ltb_false a b :
  num_ltb b a = false →
  num_leb a b = true ∨ is_nan a = true ∨ is_nan b = true.
Proof.
  unfold num_ltb, num_leb, is_nan, num_compare.
  rewrite (xcompare_antisym (num_value a) (num_value b)).
  destruct (xcompare (num_value a) (num_value b)) as [[]|] eqn:E; simpl;
    auto; try discriminate.
  intros _. right.
  destruct (num_value a), (num_value b); simpl in E; auto; discriminate.
Qed.

Lemma num_leb_ltb a b : num_leb a b = true → num_ltb b a = false.
Proof.
  unfold num_ltb, num_leb, num_compare.
  rewrite (xcompare_antisym (num_value a) (num_value b)).
  by destruct (xcompare (num_value a) (num_value b)) as [[]|].
Qed.

Lemma num_leb_refl a : is_nan a = false → num_leb a a = true.
Proof.
  unfold num_leb, is_nan, num_compare.
  destruct (xcompare_refl (num_value a)) as [E|E]; rewrite E; [|done].
  by destruct (num_value a).
Qed.

Lemma num_ltb_leb a b : num_ltb a b = true → num_leb a b = true.
Proof.
  unfold num_ltb, num_leb.
  by destruct (num_compare a b) as [[]|].
Qed.

Lemma num_ltb_leb_trans a b c :
  num_ltb a b = true → num_leb b c = true → num_ltb a c = true.
Proof.
  unfold num_ltb, num_leb, num_compare. intros Hab Hbc.
  rewrite (xcompare_trans (num_value a) (num_value b) (num_value c)); [done|..].
  - by destruct (xcompare (num_value a) (num_value b)) as [[]|].
  - destruct (xcompare (num_value b) (num_value c)) as [[]|]; auto;
      discriminate.
Qed.

Lemma num_ltb_is_nan a b :
  num_ltb a b = true → is_nan a = false ∧ is_nan b = false.
Proof.
  unfold num_ltb, is_nan, num_compare.
  by destruct (num_value a), (num_value b).
Qed.

Lemma num_op_Ok f h a b c :
  num_op f h a b = Ok c → ∃ p q r, a = ANum p ∧ b = ANum q ∧ c = ANum r.
Proof.
  destruct a as [|[x|x]|], b as [|[y|y]|]; try discriminate; cbn [num_op];
    try (intros [= <-]; by do 3 eexists);
    (intros H; apply bind_Ok in H as (u & _ & H);
     apply bind_Ok in H as (v & _ & H); injection H as <-; by do 3 eexists).
Qed.

Lemma num_cmp_Ok f a b r :
  num_cmp f a b = Ok r → ∃ p q, a = ANum p ∧ b = ANum q ∧ r = f p q.
Proof.
  destruct a, b; simpl; try discriminate.
  intros [= <-]. eauto.
Qed.

Lemma py_eq_str a s : py_eq a (AStr s) = true ↔ a = AStr s.
Proof.
  destruct a as [|q|t]; simpl; try (split; [discriminate | congruence]).
  rewrite String.eqb_eq. split; congruence.
Qed.


Lemma dict_get_idem (d : dict) key dflt :
  dict_get d key (dict_get d key dflt) = dict_get d key dflt.
Proof. unfold dict_get. by destruct (d !! key). Qed.

(** ** The size held in a market *)

Lemma getattr_Ok pos name v :
  getattr pos name = Ok v → entries pos !! name = Some v.
Proof.
  unfold getattr.
  destruct (shape_of pos); try discriminate;
    destruct (entries pos !! name); congruence.
Qed.

(** When [get_position] returns, it returns the first position whose
    market is the one looked for. *)
Lemma get_position_Ok positions market_id position :
  get_position positions market_id = Ok position →
  position = find (in_market market_id) positions.
Proof.
  induction positions as [|pos rest IH]; simpl.
  - congruence.
  - intros H. apply bind_Ok in H as (m & Hm & H).
    unfold in_market. rewrite (getattr_Ok _ _ _ Hm).
    destruct (py_eq m market_id); [congruence | auto].
Qed.

(** When the source's computation of the size held returns, it returns
    the size held of the specification. *)
Lemma current_size_Ok positions market_id v :
  current_size positions market_id = Ok v →
  v = held_size positions market_id.
Proof.
  unfold current_size, held_size. intros H.
  apply bind_Ok in H as (position & Hpos & H).
  apply get_position_Ok in Hpos as <-.
  destruct position as [pos|]; simpl in H; [|congruence].
  unfold truthy, obj_get in H.
  destruct (shape_of pos); try discriminate;
    (destruct (bool_decide_reflect (entries pos = ∅)) as [E|_]; simpl in H;
     [rewrite E; unfold dict_get; rewrite lookup_empty; simpl |]; congruence).
Qed.

(** ** What an accepted order went through *)

Lemma risk_check_accepts g order context :
  risk_check g order context = Ok true →
  ∃ held,
    current_size (default [] (positions context))
      (dict_get order "market_id" ANone) = Ok held ∧
    (dict_get order "side" ANone = AStr "BUY" →
       ∃ total, py_add held (dict_get order "size" (int 0)) = Ok total ∧
                py_gt total (MAX_POSITION g) = Ok false) ∧
    (dict_get order "side" ANone = AStr "SELL" →
       py_gt (dict_get order "size" (int 0)) held = Ok false) ∧
    py_lt (dict_get order "price" (int 0)) (flt 1 2) = Ok false ∧
    py_gt (dict_get order "price" (int 0)) (flt 99 2) = Ok false.
Proof.
  unfold risk_check. intros H.
  apply bind_Ok in H as (held & Hheld & H). exists held. split; [done|].
  apply bind_Ok in H as (over & Hover & H).
  destruct over; [discriminate|].
  apply bind_Ok in H as (short & Hshort & H).
  destruct short; [discriminate|].
  apply bind_Ok in H as (low & Hlow & H).
  destruct low; [discriminate|].
  apply bind_Ok in H as (high & Hhigh & H).
  destruct high; [discriminate|].
  repeat split; try done.
  - intros Hside. apply py_eq_str in Hside. rewrite Hside in Hover.
    apply bind_Ok in Hover as (total & Htotal & Hgt). eauto.
  - intros Hside. apply py_eq_str in Hside. by rewrite Hside in Hshort.
Qed.

(** The price check of [risk_check] passes a NaN and the prices from 0.01
    to 0.99, both included, and nothing else. *)
Lemma price_check_passes price :
  py_lt price (flt 1 2) = Ok false →
  py_gt price (flt 99 2) = Ok false →
  ∃ p, price = ANum p ∧
       (is_nan p = true ∨
        num_leb (NFloat (decimal 1 2)) p = true ∧
        num_leb p (NFloat (decimal 99 2)) = true).
Proof.
  intros Hlow Hhigh.
  apply num_cmp_Ok in Hlow as (p & lo & -> & [= <-] & Hlow).
  apply num_cmp_Ok in Hhigh as (p' & hi & [= <-] & [= <-] & Hhigh).
  exists p. split; [done|].
  symmetry in Hlow, Hhigh.
  apply num_ltb_false in Hlow as [Hlow | [Hlow | Hlow]];
    [|discriminate | by left].
  apply num_ltb_false in Hhigh as [Hhigh | [Hhigh | Hhigh]];
    [by right | by left | discriminate].
Qed.

(** ** The pending-order queue *)

Lemma place_order_queue m t side ty size price q :
  (Trading.place_order m t side ty size price q).1 =
    q ++ option_list (make_order m t side ty size price).
Proof.
  unfold Trading.place_order, make_order.
  destruct (OrderSide_of side), (OrderType_of ty); simpl;
    by rewrite ?app_nil_r.
Qed.

Lemma run_call_queue c q :
  (run_call c q).1 = q ++ option_list (order_of_call c).
Proof. destruct c; apply place_order_queue. Qed.

Lemma run_calls_queue cs : ∀ q,
  run_calls cs q = q ++ cs ≫= (λ c, option_list (order_of_call c)).
Proof.
  unfold run_calls.
  induction cs as [|c cs IH]; intros q; simpl.
  - by rewrite app_nil_r.
  - rewrite IH, run_call_queue. by rewrite <- app_assoc.
Qed.

(** C1, as stated, fails: [place_order] queues a BUY at price 1.5 and
    reports it queued, and [risk_check] rejects the order it reports. *)
Lemma pending_queue_holds_a_rejected_order :
  Trading.get_pending_orders
    (run_calls [PlaceOrder "m1" "t1" "BUY" "LIMIT" (NInt 10)
                  (Some (NFloat (decimal 15 1)))] []) =
    [{| order_market_id := "m1"; order_token_id := "t1";
        order_side := BUY; order_type := LIMIT;
        order_size := NInt 10;
        order_price := Some (NFloat (decimal 15 1)) |}] ∧
  (Trading.place_order "m1" "t1" "BUY" "LIMIT" (NInt 10)
     (Some (NFloat (decimal 15 1))) []).2 =
    Ok {| queued := true; order := overpriced_buy |} ∧
  risk_check module_globals overpriced_buy (flat_context (NInt 100))
    = Ok false.
Proof. split; [|split]; vm_compute; reflexivity. Qed.

(** C1, amended: the queue is filled without any risk check.  After any
    sequence of [place_order], [buy] and [sell] calls, the pending orders
    are the orders already pending followed by the order of every call
    whose side and order type name enum members, in the order of the
    calls. *)
Theorem pending_orders_are_the_placed_orders cs q :
  Trading.get_pending_orders (run_calls cs q) =
    q ++ cs ≫= (λ c, option_list (order_of_call c)).
Proof. unfold Trading.get_pending_orders. apply run_calls_queue. Qed.

(** C6, as stated, fails: an order with size -5 and no price on a LIMIT
    type is malformed on both counts, and [place_order] queues it. *)
Lemma malformed_order_reaches_the_queue :
  (Trading.place_order "m1" "t1" "BUY" "LIMIT" (NInt (-5)) None []).1 =
    [negative_limit_buy] ∧
  malformed negative_limit_buy = true.
Proof. split; reflexivity. Qed.

(** C6, amended: [place_order] checks the side and the order type, and
    neither the size nor the price.  A malformed order whose side and
    order type name enum members is appended to the pending orders, and
    the call reports it queued. *)
Theorem malformed_order_is_queued m t side ty size price q o :
  make_order m t side ty size price = Some o →
  malformed o = true →
  Trading.place_order m t side ty size price q =
    (q ++ [o],
     Ok {| queued := true;
           order := Trading.order_details m side ty size price |}).
Proof.
  unfold make_order, Trading.place_order. intros Ho _.
  destruct (OrderSide_of side); [|discriminate].
  destruct (OrderType_of ty); [|discriminate].
  by injection Ho as <-.
Qed.

Lemma malformed_order_is_queued_witness :
  make_order "m1" "t1" "SELL" "GTC" (NInt 0) None = Some empty_gtc_sell ∧
  malformed empty_gtc_sell = true ∧
  Trading.place_order "m1" "t1" "SELL" "GTC" (NInt 0) None [] =
    ([empty_gtc_sell],
     Ok {| queued := true;
           order := Trading.order_details "m1" "SELL" "GTC" (NInt 0) None |}).
Proof.
  split; [reflexivity|]. split; [reflexivity|].
  apply (malformed_order_is_queued "m1" "t1" "SELL" "GTC" (NInt 0) None []);
    reflexivity.
Defined.

(** C9: a drain delivers the whole queue, and a second drain, right
    after it, delivers nothing. *)
Theorem second_drain_is_empty q :
  (drain q).1 = q ∧ (drain (drain q).2).1 = [].
Proof. split; reflexivity. Qed.

(** C10: without an order type, [buy] queues a LIMIT order and [sell] a
    MARKET order; the price of the queued order is the one supplied, and
    [None] when none is. *)
Theorem buy_defaults_to_limit_and_sell_to_market m t size price q :
  buy m t size price None q =
    (q ++ [{| order_market_id := m; order_token_id := t;
              order_side := BUY; order_type := LIMIT;
              order_size := size; order_price := price |}],
     Ok {| queued := true;
           order := Trading.order_details m "BUY" "LIMIT" size price |}) ∧
  sell m t size price None q =
    (q ++ [{| order_market_id := m; order_token_id := t;
              order_side := SELL; order_type := MARKET;
              order_size := size; order_price := price |}],
     Ok {| queued := true;
           order := Trading.order_details m "SELL" "MARKET" size price |}).
Proof. split; reflexivity. Qed.

(** ** The market maker's parameters *)

(** C8: a second [initialize] with the same config changes nothing, and
    [propose_orders], which reads no other state of the module, answers
    every context alike after one call and after two. *)
Theorem initialize_idempotent config g :
  initialize config (initialize config g) = initialize config g ∧
  ∀ context,
    propose_orders (initialize config (initialize config g)) context =
    propose_orders (initialize config g) context.
Proof.
  assert (initialize config (initialize config g) = initialize config g) as E.
  { unfold initialize. simpl. by rewrite !dict_get_idem. }
  split; [done|]. intros context. by rewrite E.
Qed.

(** ** The market maker's quotes *)

Lemma limit_order_entries market_id token_id side size price :
  limit_order market_id token_id side size price !! "market_id"
    = Some market_id ∧
  limit_order market_id token_id side size price !! "token_id"
    = Some token_id ∧
  limit_order market_id token_id side size price !! "side"
    = Some (AStr side) ∧
  limit_order market_id token_id side size price !! "type"
    = Some (AStr "LIMIT") ∧
  limit_order market_id token_id side size price !! "size" = Some size ∧
  limit_order market_id token_id side size price !! "price" = Some price.
Proof. unfold limit_order. by simplify_map_eq. Qed.

(** The order proposed in the scenario of one quiet market. *)
Lemma quiet_market_proposal :
  propose_orders module_globals quiet_context =
    Ok [limit_order (AStr "m1") (AStr "t1") "BUY" (int 10) (flt 45 2)].
Proof. vm_compute. reflexivity. Qed.

(** C2, as stated, fails: the order proposed in the scenario is not priced
    within 0.01 of 0.49. *)
Lemma quiet_market_buy_is_not_near_049 :
  ¬ ∃ o p q,
      propose_orders module_globals quiet_context = Ok [o] ∧
      o !! "price" = Some (ANum p) ∧
      num_value p = XFin q ∧
      (Qabs (q - 0.49) <= 0.01)%Q.
Proof.
  intros (o & p & q & Ho & Hp & Hq & Hnear).
  rewrite quiet_market_proposal in Ho. injection Ho as <-.
  destruct (limit_order_entries (AStr "m1") (AStr "t1") "BUY" (int 10)
              (flt 45 2)) as (_ & _ & _ & _ & _ & Hprice).
  rewrite Hprice in Hp. injection Hp as <-.
  vm_compute in Hq. injection Hq as <-.
  vm_compute in Hnear. by apply Hnear.
Qed.

(** C2, amended: in the scenario the quotes at 0.49 and 0.51 are 0.02
    apart, less than the market's spread of 0.10, so that they are moved
    to midpoint -/+ spread / 2.  [propose_orders] returns one order, a
    LIMIT BUY of size 10 at price 0.45, and no SELL. *)
Theorem quiet_market_proposes_one_buy_at_045 :
  propose_orders module_globals quiet_context =
    Ok [limit_order (AStr "m1") (AStr "t1") "BUY" (int 10) (flt 45 2)].
Proof. vm_compute. reflexivity. Qed.

(** ** The market maker's risk check *)

(** C3, as stated, fails: a LIMIT order priced at 0.01, and one priced at
    0.99, is accepted.  So is one whose price is a NaN, which is neither
    below 0.01 nor above 0.99. *)
Lemma limit_order_at_an_endpoint_is_accepted :
  order_dict "BUY" "LIMIT" (NInt 10) (Some (NFloat (decimal 1 2))) !! "type"
    = Some (AStr "LIMIT") ∧
  order_dict "BUY" "LIMIT" (NInt 10) (Some (NFloat (decimal 1 2))) !! "price"
    = Some (flt 1 2) ∧
  risk_check module_globals
    (order_dict "BUY" "LIMIT" (NInt 10) (Some (NFloat (decimal 1 2))))
    (flat_context (NInt 100)) = Ok true ∧
  order_dict "BUY" "LIMIT" (NInt 10) (Some (NFloat (decimal 99 2))) !! "price"
    = Some (flt 99 2) ∧
  risk_check module_globals
    (order_dict "BUY" "LIMIT" (NInt 10) (Some (NFloat (decimal 99 2))))
    (flat_context (NInt 100)) = Ok true ∧
  risk_check module_globals
    (order_dict "BUY" "LIMIT" (NInt 10) (Some (NFloat S754_nan)))
    (flat_context (NInt 100)) = Ok true.
Proof. repeat split; vm_compute; reflexivity. Qed.

(** C3, amended: the bounds are inclusive, a NaN passes, and the check is
    made on every order, whatever its type.  If [risk_check] returns
    [True], the price of the order, taken as 0 when the order has no
    ['price'] key, is a number, and it is a NaN or
    0.01 <= price <= 0.99. *)
Theorem accepted_price_is_a_nan_or_within_closed_bounds g order context :
  risk_check g order context = Ok true →
  ∃ p, dict_get order "price" (int 0) = ANum p ∧
       (is_nan p = true ∨
        num_leb (NFloat (decimal 1 2)) p = true ∧
        num_leb p (NFloat (decimal 99 2)) = true).
Proof.
  intros H. apply risk_check_accepts in H as (_ & _ & _ & _ & Hlow & Hhigh).
  by apply price_check_passes.
Qed.

Lemma accepted_price_is_a_nan_or_within_closed_bounds_witness :
  risk_check module_globals
    (order_dict "SELL" "FOK" (NInt 5) (Some (NFloat (decimal 99 2))))
    (holding_context AttrMapping (NInt 10)) = Ok true ∧
  ∃ p, dict_get
         (order_dict "SELL" "FOK" (NInt 5) (Some (NFloat (decimal 99 2))))
         "price" (int 0) = ANum p ∧
       (is_nan p = true ∨
        num_leb (NFloat (decimal 1 2)) p = true ∧
        num_leb p (NFloat (decimal 99 2)) = true).
Proof.
  split; [vm_compute; reflexivity|].
  apply (accepted_price_is_a_nan_or_within_closed_bounds module_globals _
           (holding_context AttrMapping (NInt 10))).
  vm_compute; reflexivity.
Defined.

(** C4, as stated, fails: with balance 0, a BUY of size 10 at price 0.5,
    which costs 5, is accepted. *)
Lemma unfunded_buy_is_accepted :
  balance (flat_context (NInt 0)) = Some (int 0) ∧
  py_mul (int 10) (flt 5 1) = Ok (ANum (NFloat (float_of_int 5))) ∧
  num_ltb (NInt 0) (NFloat (float_of_int 5)) = true ∧
  risk_check module_globals
    (order_dict "BUY" "LIMIT" (NInt 10) (Some (NFloat (decimal 5 1))))
    (flat_context (NInt 0)) = Ok true.
Proof. repeat split; vm_compute; reflexivity. Qed.

(** C4, amended: [risk_check] makes no solvency check, and does not read
    the balance.  A BUY that passes the position check, made on the sum
    that Python computes, and the price check is accepted under every
    balance, also one below size * price. *)
Theorem funded_or_not_a_buy_within_limits_is_accepted
    g order context (held size total limit price : num) b :
  dict_get order "side" ANone = AStr "BUY" →
  current_size (default [] (positions context))
    (dict_get order "market_id" ANone) = Ok (ANum held) →
  dict_get order "size" (int 0) = ANum size →
  MAX_POSITION g = ANum limit →
  dict_get order "price" (int 0) = ANum price →
  py_add (ANum held) (ANum size) = Ok (ANum total) →
  num_leb total limit = true →
  num_leb (NFloat (decimal 1 2)) price = true →
  num_leb price (NFloat (decimal 99 2)) = true →
  risk_check g order (with_balance b context) = Ok true.
Proof.
  intros Hside Hheld Hsize Hlimit Hprice Htotal Hroom Hlow Hhigh.
  unfold risk_check. simpl positions.
  rewrite Hheld, Hside, Hsize, Hlimit, Hprice.
  cbn [mbind result_bind py_eq String.eqb Ascii.eqb Bool.eqb].
  rewrite Htotal.
  cbn [mbind result_bind py_gt py_lt num_cmp].
  apply num_leb_ltb in Hroom, Hlow, Hhigh.
  by rewrite Hroom, Hlow, Hhigh.
Qed.

Lemma funded_or_not_a_buy_within_limits_is_accepted_witness :
  dict_get (order_dict "BUY" "LIMIT" (NInt 10) (Some (NFloat (decimal 5 1))))
    "side" ANone = AStr "BUY" ∧
  current_size
    (default [] (positions (holding_context AttrMapping (NInt 90))))
    (dict_get
       (order_dict "BUY" "LIMIT" (NInt 10) (Some (NFloat (decimal 5 1))))
       "market_id" ANone)
    = Ok (int 90) ∧
  dict_get (order_dict "BUY" "LIMIT" (NInt 10) (Some (NFloat (decimal 5 1))))
    "size" (int 0) = int 10 ∧
  MAX_POSITION module_globals = int 100 ∧
  dict_get (order_dict "BUY" "LIMIT" (NInt 10) (Some (NFloat (decimal 5 1))))
    "price" (int 0) = flt 5 1 ∧
  py_add (int 90) (int 10) = Ok (int 100) ∧
  num_leb (NInt 100) (NInt 100) = true ∧
  num_leb (NFloat (decimal 1 2)) (NFloat (decimal 5 1)) = true ∧
  num_leb (NFloat (decimal 5 1)) (NFloat (decimal 99 2)) = true ∧
  py_mul (int 10) (flt 5 1) = Ok (ANum (NFloat (float_of_int 5))) ∧
  num_ltb (NInt 1) (NFloat (float_of_int 5)) = true ∧
  risk_check module_globals
    (order_dict "BUY" "LIMIT" (NInt 10) (Some (NFloat (decimal 5 1))))
    (with_balance (Some (int 1)) (holding_context AttrMapping (NInt 90)))
    = Ok true.
Proof.
  do 11 (split; [solve [vm_compute; reflexivity] |]).
  apply (funded_or_not_a_buy_within_limits_is_accepted module_globals
           (order_dict "BUY" "LIMIT" (NInt 10) (Some (NFloat (decimal 5 1))))
           (holding_context AttrMapping (NInt 90))
           (NInt 90) (NInt 10) (NInt 100) (NInt 100) (NFloat (decimal 5 1)));
    vm_compute; reflexivity.
Defined.

(** C5, as stated, fails.  With a position of 99.9 and the limit at 100, a
    BUY of size 0.1 is accepted: the sum of the two floats is rounded to
    100.0, while the sum of their exact values is above 100.  And a BUY or
    a SELL whose size is a NaN is accepted, a NaN being above no limit and
    above no position. *)
Lemma accepted_order_exceeds_the_position_limit :
  (∃ held size : Q,
     risk_check module_globals
       (order_dict "BUY" "LIMIT" (NFloat (decimal 1 1))
          (Some (NFloat (decimal 5 1))))
       (holding_context AttrMapping (NFloat (decimal 999 1))) = Ok true ∧
     held_size [holding AttrMapping (NFloat (decimal 999 1))] (AStr "m1")
       = flt 999 1 ∧
     num_value (NFloat (decimal 999 1)) = XFin held ∧
     num_value (NFloat (decimal 1 1)) = XFin size ∧
     MAX_POSITION module_globals = int 100 ∧
     (100 < held + size)%Q) ∧
  risk_check module_globals
    (order_dict "BUY" "LIMIT" (NFloat S754_nan) (Some (NFloat (decimal 5 1))))
    (flat_context (NInt 100)) = Ok true ∧
  py_add (int 0) (ANum (NFloat S754_nan)) = Ok (ANum (NFloat S754_nan)) ∧
  num_leb (NFloat S754_nan) (NInt 100) = false ∧
  risk_check module_globals
    (order_dict "SELL" "LIMIT" (NFloat S754_nan)
       (Some (NFloat (decimal 5 1))))
    (flat_context (NInt 100)) = Ok true ∧
  held_size [] (AStr "m1") = int 0 ∧
  num_leb (NFloat S754_nan) (NInt 0) = false.
Proof.
  split.
  - eexists _, _. repeat split; try (vm_compute; reflexivity).
  - repeat split; vm_compute; reflexivity.
Qed.

(** C5, amended: the checks are made in Python's arithmetic.  For an
    accepted BUY the sum [current_size + size], as Python computes it, is
    at most [MAX_POSITION], unless the sum or the limit is a NaN; for an
    accepted SELL the size is at most the size held, unless one of them is
    a NaN.  The size held is that of the position of the order's market, 0
    without one, and the order's size is 0 when it has no ['size'] key. *)
Theorem accepted_order_passed_the_position_checks g order context :
  risk_check g order context = Ok true →
  (dict_get order "side" ANone = AStr "BUY" →
     ∃ held size limit total : num,
       held_size (default [] (positions context))
         (dict_get order "market_id" ANone) = ANum held ∧
       dict_get order "size" (int 0) = ANum size ∧
       MAX_POSITION g = ANum limit ∧
       py_add (ANum held) (ANum size) = Ok (ANum total) ∧
       (num_leb total limit = true ∨
        is_nan total = true ∨ is_nan limit = true)) ∧
  (dict_get order "side" ANone = AStr "SELL" →
     ∃ held size : num,
       held_size (default [] (positions context))
         (dict_get order "market_id" ANone) = ANum held ∧
       dict_get order "size" (int 0) = ANum size ∧
       (num_leb size held = true ∨
        is_nan size = true ∨ is_nan held = true)).
Proof.
  intros H.
  apply risk_check_accepts in H as (held & Hheld & Hbuy & Hsell & _).
  apply current_size_Ok in Hheld.
  split; intros Hside.
  - destruct (Hbuy Hside) as (total & Hadd & Hgt).
    destruct (num_op_Ok _ _ _ _ _ Hadd) as (h & s & t & Hh & Hs & ->).
    apply num_cmp_Ok in Hgt as (t' & limit & [= <-] & Hlimit & Hgt).
    exists h, s, limit, t.
    rewrite Hh, Hs in Hadd.
    repeat split; try congruence.
    symmetry in Hgt. by apply num_ltb_false in Hgt.
  - apply Hsell in Hside.
    apply num_cmp_Ok in Hside as (s & h & Hs & Hh & Hgt).
    exists h, s. repeat split; try congruence.
    symmetry in Hgt. by apply num_ltb_false in Hgt.
Qed.

Lemma accepted_order_passed_the_position_checks_witness :
  risk_check module_globals
    (order_dict "BUY" "LIMIT" (NInt 10) (Some (NFloat (decimal 5 1))))
    (holding_context AttrMapping (NInt 90)) = Ok true ∧
  (∃ held size limit total : num,
     held_size [holding AttrMapping (NInt 90)] (AStr "m1") = ANum held ∧
     dict_get
       (order_dict "BUY" "LIMIT" (NInt 10) (Some (NFloat (decimal 5 1))))
       "size" (int 0) = ANum size ∧
     MAX_POSITION module_globals = ANum limit ∧
     py_add (ANum held) (ANum size) = Ok (ANum total) ∧
     (num_leb total limit = true ∨
      is_nan total = true ∨ is_nan limit = true)).
Proof.
  split; [vm_compute; reflexivity|].
  apply (accepted_order_passed_the_position_checks module_globals
           (order_dict "BUY" "LIMIT" (NInt 10) (Some (NFloat (decimal 5 1))))
           (holding_context AttrMapping (NInt 90)));
    vm_compute; reflexivity.
Defined.

(** C7, as stated, fails: a MARKET SELL of size 5 with no price, against a
    position of size 10, is rejected; the same order with a price in range
    is accepted, so that the price check is what rejects it.  With
    ['price'] set to [None] the check raises. *)
Lemma market_sell_without_price_is_rejected :
  held_size [holding AttrMapping (NInt 10)] (AStr "m1") = int 10 ∧
  num_leb (NInt 5) (NInt 10) = true ∧
  order_dict "SELL" "MARKET" (NInt 5) None !! "price" = None ∧
  risk_check module_globals (order_dict "SELL" "MARKET" (NInt 5) None)
    (holding_context AttrMapping (NInt 10)) = Ok false ∧
  risk_check module_globals
    (order_dict "SELL" "MARKET" (NInt 5) (Some (NFloat (decimal 5 1))))
    (holding_context AttrMapping (NInt 10)) = Ok true ∧
  risk_check module_globals
    (<["price" := ANone]> (order_dict "SELL" "MARKET" (NInt 5) None))
    (holding_context AttrMapping (NInt 10)) = Raise TypeError.
Proof. repeat split; vm_compute; reflexivity. Qed.

(** C7, amended: the price check is made on every order; the order's type
    is not read.  An order without a price, be it that the ['price'] key
    is missing or that it holds [None], is not accepted whatever type is
    written into it, MARKET included. *)
Theorem order_without_price_is_not_accepted g order context ty :
  order !! "price" = None ∨ order !! "price" = Some ANone →
  risk_check g (<["type" := AStr ty]> order) context ≠ Ok true.
Proof.
  intros Hprice H.
  apply risk_check_accepts in H as (_ & _ & _ & _ & Hlow & _).
  unfold dict_get in Hlow. rewrite lookup_insert_ne in Hlow by done.
  destruct Hprice as [E | E]; rewrite E in Hlow; vm_compute in Hlow;
    discriminate.
Qed.

Lemma order_without_price_is_not_accepted_witness :
  (order_dict "SELL" "LIMIT" (NInt 5) None !! "price" = None ∨
   order_dict "SELL" "LIMIT" (NInt 5) None !! "price" = Some ANone) ∧
  risk_check module_globals
    (<["type" := AStr "MARKET"]> (order_dict "SELL" "LIMIT" (NInt 5) None))
    (holding_context AttrMapping (NInt 10)) ≠ Ok true.
Proof.
  split; [left; vm_compute; reflexivity|].
  apply (order_without_price_is_not_accepted module_globals
           (order_dict "SELL" "LIMIT" (NInt 5) None)
           (holding_context AttrMapping (NInt 10)) "MARKET").
  left; vm_compute; reflexivity.
Defined.
(** * Further properties of the SDK *)

Ltac case_eqb :=
  match goal with
  | |- context [String.eqb ?a ?b] => destruct (String.eqb_spec a b)
  end.

Lemma OrderSide_of_Ok value s :
  OrderSide_of value = Ok s → OrderSide_value s = value.
Proof.
  unfold OrderSide_of.
  repeat (case_eqb; [by intros [= <-]|]). discriminate.
Qed.

Lemma OrderType_of_Ok value t :
  OrderType_of value = Ok t → OrderType_value t = value.
Proof.
  unfold OrderType_of.
  repeat (case_eqb; [by intros [= <-]|]). discriminate.
Qed.

Lemma OrderSide_of_Raise value e :
  OrderSide_of value = Raise e → e = ValueError ∧ value ∉ ["BUY"; "SELL"].
Proof.
  unfold OrderSide_of.
  repeat (case_eqb; [discriminate|]).
  intros [= <-]. split; [done|].
  rewrite !elem_of_cons, elem_of_nil. tauto.
Qed.

Lemma OrderType_of_Raise value e :
  OrderType_of value = Raise e →
  e = ValueError ∧ value ∉ ["MARKET"; "LIMIT"; "GTC"; "GTD"; "FOK"; "FAK"].
Proof.
  unfold OrderType_of.
  repeat (case_eqb; [discriminate|]).
  intros [= <-]. split; [done|].
  rewrite !elem_of_cons, elem_of_nil. tauto.
Qed.


(** X2: the dict that [place_order] returns describes the order it has
    appended: same market, side, type, size and price, the enum members by
    their values.  The token id is not reported. *)
Theorem receipt_describes_the_queued_order m t side ty size price q q' r :
  Trading.place_order m t side ty size price q = (q', Ok r) →
  ∃ o,
    q' = q ++ [o] ∧
    queued r = true ∧
    order r !! "market_id" = Some (AStr (order_market_id o)) ∧
    order r !! "side" = Some (AStr (OrderSide_value (order_side o))) ∧
    order r !! "type" = Some (AStr (OrderType_value (order_type o))) ∧
    order r !! "size" = Some (ANum (order_size o)) ∧
    order r !! "price" = Some (optional_num (order_price o)) ∧
    order r !! "token_id" = None ∧
    order_token_id o = t.
Proof.
  unfold Trading.place_order.
  destruct (OrderSide_of side) as [s|] eqn:Hs; [|discriminate].
  destruct (OrderType_of ty) as [y|] eqn:Hy; [|discriminate].
  intros [= <- <-]. eexists. split; [reflexivity|]. simpl.
  rewrite (OrderSide_of_Ok _ _ Hs), (OrderType_of_Ok _ _ Hy).
  unfold Trading.order_details. by simplify_map_eq.
Qed.

Lemma receipt_describes_the_queued_order_witness :
  Trading.place_order "m1" "t1" "SELL" "FOK" (NInt 3)
    (Some (NFloat (decimal 4 1))) [negative_limit_buy]
    = ([negative_limit_buy; fok_sell],
       Ok {| queued := true; order := fok_sell_details |}) ∧
  ∃ o,
    [negative_limit_buy; fok_sell] = [negative_limit_buy] ++ [o] ∧
    queued {| queued := true; order := fok_sell_details |} = true ∧
    fok_sell_details !! "market_id" = Some (AStr (order_market_id o)) ∧
    fok_sell_details !! "side"
      = Some (AStr (OrderSide_value (order_side o))) ∧
    fok_sell_details !! "type"
      = Some (AStr (OrderType_value (order_type o))) ∧
    fok_sell_details !! "size" = Some (ANum (order_size o)) ∧
    fok_sell_details !! "price" = Some (optional_num (order_price o)) ∧
    fok_sell_details !! "token_id" = None ∧
    order_token_id o = "t1".
Proof.
  split; [reflexivity|].
  apply (receipt_describes_the_queued_order "m1" "t1" "SELL" "FOK" (NInt 3)
           (Some (NFloat (decimal 4 1))) [negative_limit_buy]).
  reflexivity.
Defined.

(** X3: a side other than "BUY" and "SELL", or an order type that is not
    the value of a member of [OrderType], makes [place_order] raise
    [ValueError], and the pending orders stay as they were. *)
Theorem unknown_side_or_type_is_refused m t side ty size price q :
  side ∉ ["BUY"; "SELL"] ∨
  ty ∉ ["MARKET"; "LIMIT"; "GTC"; "GTD"; "FOK"; "FAK"] →
  Trading.place_order m t side ty size price q = (q, Raise ValueError).
Proof.
  intros H. unfold Trading.place_order.
  destruct (OrderSide_of side) as [s|e] eqn:Hs.
  - destruct (OrderType_of ty) as [y|e] eqn:Hy.
    + apply OrderSide_of_Ok in Hs as <-. apply OrderType_of_Ok in Hy as <-.
      exfalso. destruct H as [H|H]; apply H; [destruct s | destruct y];
        set_solver.
    + by apply OrderType_of_Raise in Hy as [-> _].
  - by apply OrderSide_of_Raise in Hs as [-> _].
Qed.

Lemma unknown_side_or_type_is_refused_witness :
  ("buy" ∉ ["BUY"; "SELL"] ∨
   "LIMIT" ∉ ["MARKET"; "LIMIT"; "GTC"; "GTD"; "FOK"; "FAK"]) ∧
  Trading.place_order "m1" "t1" "buy" "LIMIT" (NInt 10)
    (Some (NFloat (decimal 5 1))) [negative_limit_buy]
    = ([negative_limit_buy], Raise ValueError).
Proof.
  assert ("buy" ∉ ["BUY"; "SELL"]) as H.
  { intros H. apply list_elem_of_In in H. simpl in H.
    destruct H as [H|[H|[]]]; discriminate. }
  split; [by left|].
  apply (unknown_side_or_type_is_refused "m1" "t1" "buy" "LIMIT" (NInt 10)
           (Some (NFloat (decimal 5 1))) [negative_limit_buy]).
  by left.
Defined.

(** X4: [orderbook] shows no bid, and no ask, exactly for the markets
    that [get_market] does not find. *)
Theorem orderbook_is_empty_for_unknown_markets_only _data market_id :
  (MarketData.bids (MarketData.orderbook _data market_id) = [] ↔
     get_market _data market_id = None) ∧
  (MarketData.asks (MarketData.orderbook _data market_id) = [] ↔
     get_market _data market_id = None).
Proof.
  unfold get_market, MarketData.get, MarketData.orderbook.
  destruct (_data !! market_id) as [market|]; simpl;
    repeat split; done.
Qed.

(** ** Looking a position up *)

(** X5: when [get_position] returns a position, it is the first one of
    the list whose [market_id] is the market asked for: the positions
    before it belong to other markets. *)
Theorem get_position_returns_the_first_match positions market_id pos :
  get_position positions market_id = Ok (Some pos) →
  ∃ before after m,
    positions = before ++ pos :: after ∧
    getattr pos "market_id" = Ok m ∧ py_eq m market_id = true ∧
    Forall (λ p, ∃ m', getattr p "market_id" = Ok m' ∧
                       py_eq m' market_id = false) before.
Proof.
  induction positions as [|p rest IH]; simpl; [discriminate|].
  intros H. apply bind_Ok in H as (m & Hm & H).
  destruct (py_eq m market_id) eqn:E.
  - injection H as <-. exists [], rest, m. by repeat split.
  - destruct (IH H) as (before & after & m' & -> & Hm' & E' & Hbefore).
    exists (p :: before), after, m'. repeat split; try done.
    constructor; eauto.
Qed.

Lemma get_position_returns_the_first_match_witness :
  get_position [holding AttrMapping (NInt 5); holding Dataclass (NInt 7)]
    (AStr "m1")
    = Ok (Some (holding AttrMapping (NInt 5))) ∧
  ∃ before after m,
    [holding AttrMapping (NInt 5); holding Dataclass (NInt 7)]
      = before ++ holding AttrMapping (NInt 5) :: after ∧
    getattr (holding AttrMapping (NInt 5)) "market_id" = Ok m ∧
    py_eq m (AStr "m1") = true ∧
    Forall (λ p, ∃ m', getattr p "market_id" = Ok m' ∧
                       py_eq m' (AStr "m1") = false) before.
Proof.
  split; [vm_compute; reflexivity|].
  apply (get_position_returns_the_first_match
           [holding AttrMapping (NInt 5); holding Dataclass (NInt 7)]
           (AStr "m1")).
  vm_compute; reflexivity.
Defined.

(** X6: a plain dict in the list makes [get_position] raise
    [AttributeError] as soon as the search reaches it, that is, unless a
    position before it is of the market asked for. *)
Theorem get_position_raises_on_a_plain_dict before pos after market_id :
  Forall (λ p, ∃ m', getattr p "market_id" = Ok m' ∧
                     py_eq m' market_id = false) before →
  shape_of pos = PlainDict →
  get_position (before ++ pos :: after) market_id = Raise AttributeError.
Proof.
  intros Hbefore Hshape.
  induction Hbefore as [|p ps (m' & Hm' & E) _ IH]; simpl.
  - unfold getattr. by rewrite Hshape.
  - rewrite Hm'. simpl. by rewrite E.
Qed.

Lemma get_position_raises_on_a_plain_dict_witness :
  Forall (λ p, ∃ m', getattr p "market_id" = Ok m' ∧
                     py_eq m' (AStr "m2") = false)
    [holding Dataclass (NInt 7)] ∧
  shape_of (holding PlainDict (NInt 5)) = PlainDict ∧
  get_position
    ([holding Dataclass (NInt 7)] ++ holding PlainDict (NInt 5) :: [])
    (AStr "m2") = Raise AttributeError.
Proof.
  assert (Forall (λ p, ∃ m', getattr p "market_id" = Ok m' ∧
                             py_eq m' (AStr "m2") = false)
            [holding Dataclass (NInt 7)]) as H.
  { constructor; [|constructor]. exists (AStr "m1").
    split; vm_compute; reflexivity. }
  split; [exact H|]. split; [reflexivity|].
  apply (get_position_raises_on_a_plain_dict
           [holding Dataclass (NInt 7)] (holding PlainDict (NInt 5)) []
           (AStr "m2") H).
  reflexivity.
Defined.

(** * Further properties of the risk check *)

(** X7: when the position that [get_position] finds for the order's
    market is an instance of the SDK's [Position] dataclass, [risk_check]
    raises [AttributeError]: the instance has no [get]. *)
Theorem risk_check_raises_on_a_position_instance g order context pos :
  get_position (default [] (positions context))
    (dict_get order "market_id" ANone) = Ok (Some pos) →
  shape_of pos = Dataclass →
  risk_check g order context = Raise AttributeError.
Proof.
  intros Hpos Hshape. unfold risk_check, current_size.
  rewrite Hpos. simpl. unfold truthy, obj_get. by rewrite Hshape.
Qed.

Lemma risk_check_raises_on_a_position_instance_witness :
  get_position (default [] (positions (holding_context Dataclass (NInt 10))))
    (dict_get
       (order_dict "SELL" "LIMIT" (NInt 5) (Some (NFloat (decimal 5 1))))
       "market_id" ANone)
    = Ok (Some (holding Dataclass (NInt 10))) ∧
  shape_of (holding Dataclass (NInt 10)) = Dataclass ∧
  risk_check module_globals
    (order_dict "SELL" "LIMIT" (NInt 5) (Some (NFloat (decimal 5 1))))
    (holding_context Dataclass (NInt 10)) = Raise AttributeError.
Proof.
  split; [vm_compute; reflexivity|]. split; [reflexivity|].
  apply (risk_check_raises_on_a_position_instance module_globals
           (order_dict "SELL" "LIMIT" (NInt 5) (Some (NFloat (decimal 5 1))))
           (holding_context Dataclass (NInt 10))
           (holding Dataclass (NInt 10)));
    vm_compute; reflexivity.
Defined.

Lemma py_eq_str_false a s : a ≠ AStr s → py_eq a (AStr s) = false.
Proof.
  intros H. apply not_true_is_false. by rewrite py_eq_str.
Qed.

(** X8: an order whose side is neither "BUY" nor "SELL" goes through no
    position check: with a price in range it is accepted whatever its
    size, provided that the size held can be computed. *)
Theorem unknown_side_skips_the_position_checks
    g order context held (price : num) :
  dict_get order "side" ANone ≠ AStr "BUY" →
  dict_get order "side" ANone ≠ AStr "SELL" →
  current_size (default [] (positions context))
    (dict_get order "market_id" ANone) = Ok held →
  dict_get order "price" (int 0) = ANum price →
  num_leb (NFloat (decimal 1 2)) price = true →
  num_leb price (NFloat (decimal 99 2)) = true →
  risk_check g order context = Ok true.
Proof.
  intros Hbuy Hsell Hheld Hprice Hlow Hhigh. unfold risk_check.
  rewrite Hheld, (py_eq_str_false _ _ Hbuy), (py_eq_str_false _ _ Hsell).
  rewrite Hprice. cbn [mbind result_bind py_gt py_lt num_cmp].
  apply num_leb_ltb in Hlow, Hhigh. by rewrite Hlow, Hhigh.
Qed.

Lemma unknown_side_skips_the_position_checks_witness :
  dict_get
    (order_dict "buy" "LIMIT" (NInt 100000) (Some (NFloat (decimal 5 1))))
    "side" ANone ≠ AStr "BUY" ∧
  dict_get
    (order_dict "buy" "LIMIT" (NInt 100000) (Some (NFloat (decimal 5 1))))
    "side" ANone ≠ AStr "SELL" ∧
  current_size (default [] (positions (flat_context (NInt 0))))
    (dict_get
       (order_dict "buy" "LIMIT" (NInt 100000) (Some (NFloat (decimal 5 1))))
       "market_id" ANone)
    = Ok (int 0) ∧
  dict_get
    (order_dict "buy" "LIMIT" (NInt 100000) (Some (NFloat (decimal 5 1))))
    "price" (int 0) = flt 5 1 ∧
  num_leb (NFloat (decimal 1 2)) (NFloat (decimal 5 1)) = true ∧
  num_leb (NFloat (decimal 5 1)) (NFloat (decimal 99 2)) = true ∧
  risk_check module_globals
    (order_dict "buy" "LIMIT" (NInt 100000) (Some (NFloat (decimal 5 1))))
    (flat_context (NInt 0)) = Ok true.
Proof.
  do 6 (split; [solve [vm_compute; reflexivity || discriminate] |]).
  apply (unknown_side_skips_the_position_checks module_globals
           (order_dict "buy" "LIMIT" (NInt 100000)
              (Some (NFloat (decimal 5 1))))
           (flat_context (NInt 0)) (int 0) (NFloat (decimal 5 1)));
    solve [vm_compute; reflexivity || discriminate].
Defined.

Lemma dict_get_insert (d : dict) key key' v dflt :
  dict_get (<[key := v]> d) key' dflt =
    if decide (key = key') then v else dict_get d key' dflt.
Proof.
  unfold dict_get. rewrite lookup_insert. by destruct (decide (key = key')).
Qed.

(** X9: an accepted order whose side is not "BUY" stays accepted when its
    size is made smaller; no lower bound is put on the size.  (For a BUY
    the check is made on a sum, which is rounded when a float takes part
    and which raises when an int is too large for a float.) *)
Theorem accepted_sell_stays_accepted_when_smaller
    g order context (size size' : num) :
  risk_check g order context = Ok true →
  dict_get order "side" ANone ≠ AStr "BUY" →
  dict_get order "size" (int 0) = ANum size →
  num_leb size' size = true →
  risk_check g (<["size" := ANum size']> order) context = Ok true.
Proof.
  intros H Hside Hsize Hle.
  apply risk_check_accepts in H as (held & Hheld & _ & Hsell & Hlow & Hhigh).
  unfold risk_check. rewrite !dict_get_insert. simpl.
  rewrite Hheld, Hlow, Hhigh, (py_eq_str_false _ _ Hside).
  cbn [mbind result_bind].
  destruct (py_eq (dict_get order "side" ANone) (AStr "SELL")) eqn:Es;
    [|done].
  apply py_eq_str in Es. specialize (Hsell Es). rewrite Hsize in Hsell.
  apply num_cmp_Ok in Hsell as (s & h & [= <-] & -> & Hgt).
  cbn [py_gt num_cmp mbind result_bind].
  destruct (num_ltb h size') eqn:E; [|done].
  by rewrite (num_ltb_leb_trans _ _ _ E Hle) in Hgt.
Qed.

Lemma accepted_sell_stays_accepted_when_smaller_witness :
  risk_check module_globals
    (order_dict "SELL" "LIMIT" (NInt 5) (Some (NFloat (decimal 5 1))))
    (holding_context AttrMapping (NInt 10)) = Ok true ∧
  dict_get (order_dict "SELL" "LIMIT" (NInt 5) (Some (NFloat (decimal 5 1))))
    "side" ANone ≠ AStr "BUY" ∧
  dict_get (order_dict "SELL" "LIMIT" (NInt 5) (Some (NFloat (decimal 5 1))))
    "size" (int 0) = int 5 ∧
  num_leb (NFloat (decimal (-35) 1)) (NInt 5) = true ∧
  risk_check module_globals
    (<["size" := flt (-35) 1]>
       (order_dict "SELL" "LIMIT" (NInt 5) (Some (NFloat (decimal 5 1)))))
    (holding_context AttrMapping (NInt 10)) = Ok true.
Proof.
  do 4 (split; [solve [vm_compute; reflexivity || discriminate] |]).
  apply (accepted_sell_stays_accepted_when_smaller module_globals
           (order_dict "SELL" "LIMIT" (NInt 5) (Some (NFloat (decimal 5 1))))
           (holding_context AttrMapping (NInt 10)) (NInt 5)
           (NFloat (decimal (-35) 1)));
    solve [vm_compute; reflexivity || discriminate].
Defined.

(** X10: [risk_check] reads four keys of the order (market_id, side, size
    and price) and the positions of the context, and nothing else: two
    orders that agree on the four keys get the same answer in two contexts
    with the same positions, whatever their types, token ids and other
    entries, and whatever the balances and market data. *)
Theorem risk_check_reads_four_keys_and_the_positions
    g (order order' : dict) context context' :
  (∀ key, key ∈ ["market_id"; "side"; "size"; "price"] →
          order !! key = order' !! key) →
  positions context = positions context' →
  risk_check g order context = risk_check g order' context'.
Proof.
  intros Hkeys Hpos. unfold risk_check, dict_get.
  rewrite Hpos.
  rewrite (Hkeys "market_id"), (Hkeys "side"), (Hkeys "size"),
    (Hkeys "price"); [done|..];
    rewrite !elem_of_cons; tauto.
Qed.

Lemma risk_check_reads_four_keys_and_the_positions_witness :
  (∀ key, key ∈ ["market_id"; "side"; "size"; "price"] →
          order_dict "BUY" "LIMIT" (NInt 10) (Some (NFloat (decimal 5 1)))
            !! key =
          delete "token_id"
            (order_dict "BUY" "FOK" (NInt 10) (Some (NFloat (decimal 5 1))))
            !! key) ∧
  positions (holding_context AttrMapping (NInt 5)) =
    positions (with_balance None (holding_context AttrMapping (NInt 5))) ∧
  risk_check module_globals
    (order_dict "BUY" "LIMIT" (NInt 10) (Some (NFloat (decimal 5 1))))
    (holding_context AttrMapping (NInt 5)) =
  risk_check module_globals
    (delete "token_id"
       (order_dict "BUY" "FOK" (NInt 10) (Some (NFloat (decimal 5 1)))))
    (with_balance None (holding_context AttrMapping (NInt 5))).
Proof.
  assert (∀ key, key ∈ ["market_id"; "side"; "size"; "price"] →
            order_dict "BUY" "LIMIT" (NInt 10) (Some (NFloat (decimal 5 1)))
              !! key =
            delete "token_id"
              (order_dict "BUY" "FOK" (NInt 10) (Some (NFloat (decimal 5 1))))
              !! key)
    as H.
  { intros key. rewrite !elem_of_cons, elem_of_nil.
    intros [->|[->|[->|[->|[]]]]]; vm_compute; reflexivity. }
  split; [exact H|]. split; [reflexivity|].
  apply (risk_check_reads_four_keys_and_the_positions module_globals _ _
           (holding_context AttrMapping (NInt 5))
           (with_balance None (holding_context AttrMapping (NInt 5))) H).
  reflexivity.
Defined.

(** * Further properties of the market maker *)

(** ** Configuration *)

(** X11: two calls of [initialize] amount to one call with the merged
    config, in which the second config takes precedence:
    [{**config1, **config2}]. *)
Theorem initialize_twice_merges_the_configs (config1 config2 : dict) g :
  initialize config2 (initialize config1 g) =
    initialize (config2 ∪ config1) g.
Proof.
  unfold initialize, dict_get. simpl. rewrite !lookup_union.
  f_equal;
    match goal with
    | |- context [config2 !! ?k] =>
        destruct (config2 !! k), (config1 !! k); reflexivity
    end.
Qed.

(** ** Ticks *)

Lemma xcompare_Eq_trans a b c :
  xcompare a b = Some Eq → xcompare b c = Some Eq → xcompare a c = Some Eq.
Proof.
  destruct a as [|s|p], b as [|t|q], c as [|u|r]; simpl; intros H1 H2;
    try discriminate;
    repeat match goal with x : bool |- _ => destruct x end; try done.
  injection H1 as H1. injection H2 as H2. f_equal.
  apply Qeq_alt in H1, H2. apply Qeq_alt. by rewrite H1.
Qed.

Lemma num_eqb_refl n : is_nan n = false → num_eqb n n = true.
Proof.
  unfold num_eqb, is_nan, num_compare.
  destruct (xcompare_refl (num_value n)) as [E|E]; rewrite E; [|done].
  by destruct (num_value n).
Qed.

Lemma num_eqb_sym p q : num_eqb p q = num_eqb q p.
Proof.
  unfold num_eqb, num_compare.
  rewrite (xcompare_antisym (num_value p) (num_value q)).
  by destruct (xcompare (num_value p) (num_value q)) as [[]|].
Qed.

Lemma num_eqb_trans p q r :
  num_eqb p q = true → num_eqb q r = true → num_eqb p r = true.
Proof.
  unfold num_eqb, num_compare. intros H1 H2.
  rewrite (xcompare_Eq_trans (num_value p) (num_value q) (num_value r));
    [done|..].
  - by destruct (xcompare (num_value p) (num_value q)) as [[]|].
  - by destruct (xcompare (num_value q) (num_value r)) as [[]|].
Qed.

Lemma num_eqb_is_nan p q :
  num_eqb p q = true → is_nan p = false ∧ is_nan q = false.
Proof.
  unfold num_eqb, is_nan, num_compare.
  by destruct (num_value p), (num_value q).
Qed.

Lemma same_key_spec a b :
  same_key a b =
    match a, b with
    | ANum p, ANum q => is_nan p && is_nan q || num_eqb p q
    | _, _ => py_eq a b
    end.
Proof. by destruct a as [|[x|[]]|s], b as [|[y|[]]|t]. Qed.

Lemma same_key_refl a : same_key a a = true.
Proof.
  rewrite same_key_spec.
  destruct a as [|n|s]; [done| |apply String.eqb_refl].
  destruct (is_nan n) eqn:E; [done|]. by rewrite num_eqb_refl.
Qed.

Lemma same_key_sym a b : same_key a b = same_key b a.
Proof.
  rewrite !same_key_spec.
  destruct a as [|p|s], b as [|q|t]; try done.
  - by rewrite num_eqb_sym, andb_comm.
  - apply String.eqb_sym.
Qed.

Lemma same_key_trans a b c :
  same_key a b = true → same_key b c = true → same_key a c = true.
Proof.
  rewrite !same_key_spec.
  destruct a as [|p|s], b as [|q|t], c as [|r|u]; try done.
  - rewrite !orb_true_iff, !andb_true_iff.
    intros [[Hp Hq] | H1] [[Hq' Hr] | H2]; auto.
    + apply num_eqb_is_nan in H2 as [H2 _]. congruence.
    + apply num_eqb_is_nan in H1 as [_ H1]. congruence.
    + right. by apply num_eqb_trans with q.
  - simpl. rewrite !String.eqb_eq. congruence.
Qed.

Lemma items_get_set (items : list (atom * atom)) key value :
  items_get (items_set items key value) key = Some value.
Proof.
  induction items as [|[k v] rest IH]; simpl.
  - by rewrite same_key_refl.
  - destruct (same_key k key) eqn:E; simpl; by rewrite E.
Qed.

Lemma items_get_set_other (items : list (atom * atom)) key value key' :
  same_key key key' = false →
  items_get (items_set items key value) key' = items_get items key'.
Proof.
  intros Hne. induction items as [|[k v] rest IH]; simpl.
  - by rewrite Hne.
  - destruct (same_key k key) eqn:E; simpl.
    + destruct (same_key k key') eqn:E'; [|done].
      rewrite same_key_sym in E.
      by rewrite (same_key_trans _ _ _ E E') in Hne.
    + by rewrite IH.
Qed.

Lemma on_tick_Ok market_state _last_prices items b :
  on_tick market_state _last_prices = (items, Ok b) →
  items = items_set _last_prices (dict_get market_state "market_id" ANone)
            (dict_get market_state "midpoint" (flt 5 1)).
Proof.
  unfold on_tick.
  match goal with |- context [match ?r with Ok _ => _ | Raise _ => _ end] =>
    destruct r as [logged|e]
  end; [|discriminate].
  by intros [= <- _].
Qed.

(** X12: after a tick that raises nothing, [_last_prices] holds the
    midpoint of the tick (0.5 when the tick has none) for the market of
    the tick, and what it held for every other market. *)
Theorem on_tick_records_the_midpoint market_state _last_prices items b :
  on_tick market_state _last_prices = (items, Ok b) →
  items_get items (dict_get market_state "market_id" ANone) =
    Some (dict_get market_state "midpoint" (flt 5 1)) ∧
  ∀ other,
    same_key (dict_get market_state "market_id" ANone) other = false →
    items_get items other = items_get _last_prices other.
Proof.
  intros H. apply on_tick_Ok in H as ->. split.
  - apply items_get_set.
  - intros other Hne. by apply items_get_set_other.
Qed.

Lemma on_tick_records_the_midpoint_witness :
  on_tick quiet_market [(AStr "m1", flt 4 1); (AStr "m2", flt 7 1)] =
    ([(AStr "m1", flt 5 1); (AStr "m2", flt 7 1)], Ok true) ∧
  items_get [(AStr "m1", flt 5 1); (AStr "m2", flt 7 1)]
    (dict_get quiet_market "market_id" ANone) =
    Some (dict_get quiet_market "midpoint" (flt 5 1)) ∧
  ∀ other,
    same_key (dict_get quiet_market "market_id" ANone) other = false →
    items_get [(AStr "m1", flt 5 1); (AStr "m2", flt 7 1)] other =
    items_get [(AStr "m1", flt 4 1); (AStr "m2", flt 7 1)] other.
Proof.
  split; [vm_compute; reflexivity|].
  apply (on_tick_records_the_midpoint quiet_market
           [(AStr "m1", flt 4 1); (AStr "m2", flt 7 1)] _ true).
  vm_compute; reflexivity.
Defined.

Lemma fsub_diag s m e :
  fsub (S754_finite s m e) (S754_finite s m e) = S754_zero false.
Proof. unfold fsub, SFsub. cbv zeta. by rewrite Z.sub_diag. Qed.

(** Against a last price equal to the midpoint, the change is 0.0 or a
    NaN, and not above the threshold. *)
Lemma no_move_no_log (m : num) :
  atom_truthy (ANum m) = true →
  (moved ← py_sub (ANum m) (ANum m);
   distance ← py_abs moved;
   change ← py_div distance (ANum m);
   py_gt change REFRESH_THRESHOLD) = Ok false.
Proof.
  destruct m as [z|[s|s| |s m e]]; cbn [atom_truthy]; try discriminate;
    intros Htrue.
  - cbn [py_sub num_op mbind result_bind py_abs py_div].
    rewrite Z.sub_diag. apply negb_true_iff in Htrue. rewrite Htrue.
    destruct z; [discriminate| |]; vm_compute; reflexivity.
  - destruct s; vm_compute; reflexivity.
  - vm_compute; reflexivity.
  - cbn [py_sub num_op to_float mbind result_bind]. rewrite fsub_diag.
    destruct s; vm_compute; reflexivity.
Qed.

(** X15: a tick that repeats the tick before it, with a numeric midpoint,
    logs nothing. *)
Theorem repeated_tick_logs_nothing market_state _last_prices (m : num) b :
  dict_get market_state "midpoint" (flt 5 1) = ANum m →
  (on_tick market_state _last_prices).2 = Ok b →
  (on_tick market_state (on_tick market_state _last_prices).1).2 = Ok false.
Proof.
  intros Hm Hfirst.
  destruct (on_tick market_state _last_prices) as [items r] eqn:E.
  simpl in *. subst r.
  apply on_tick_Ok in E as ->.
  unfold on_tick. rewrite items_get_set, Hm.
  destruct (atom_truthy (ANum m)) eqn:Htrue; [|done].
  by rewrite (no_move_no_log m Htrue).
Qed.

Lemma repeated_tick_logs_nothing_witness :
  dict_get quiet_market "midpoint" (flt 5 1) = flt 5 1 ∧
  (on_tick quiet_market [(AStr "m1", flt 4 1)]).2 = Ok true ∧
  (on_tick quiet_market (on_tick quiet_market [(AStr "m1", flt 4 1)]).1).2
    = Ok false.
Proof.
  do 2 (split; [vm_compute; reflexivity|]).
  apply (repeated_tick_logs_nothing quiet_market
           [(AStr "m1", flt 4 1)] (NFloat (decimal 5 1)) true);
    vm_compute; reflexivity.
Defined.

(** *** The float of an int *)

(** A shift to the right by less than the length of a mantissa leaves a
    positive mantissa. *)
Lemma shr_1_keeps k r :
  (0 <= k)%Z →
  (2 ^ (k + 1) <= shr_m r)%Z → (2 ^ k <= shr_m (shr_1 r))%Z.
Proof.
  intros Hk. rewrite Z.pow_add_r, Z.pow_1_r by lia.
  pose proof (Z.pow_pos_nonneg 2 k) as Hpos.
  destruct r as [[|[p|p|]|p] r s]; simpl; lia.
Qed.

Lemma iter_shr_1_keeps p : ∀ k r,
  (0 <= k)%Z →
  (2 ^ (k + Zpos p) <= shr_m r)%Z →
  (2 ^ k <= shr_m (SpecFloat.iter_pos shr_1 p r))%Z.
Proof.
  induction p as [p IH|p IH|]; intros k r Hk H; simpl.
  - apply IH; [done|]. apply IH; [lia|].
    apply shr_1_keeps; [lia|].
    replace (k + Z.pos p + Z.pos p + 1)%Z with (k + Z.pos p~1)%Z by lia. done.
  - apply IH; [done|]. apply IH; [lia|].
    replace (k + Z.pos p + Z.pos p)%Z with (k + Z.pos p~0)%Z by lia. done.
  - by apply shr_1_keeps.
Qed.

Lemma digits2_pos_size p : digits2_pos p = Pos.size p.
Proof. induction p; simpl; congruence. Qed.

Lemma digits2_pos_le p : (2 ^ (Zpos (digits2_pos p) - 1) <= Zpos p)%Z.
Proof.
  rewrite digits2_pos_size.
  pose proof (Pos.size_le p) as H.
  apply Pos2Z.pos_le_pos in H. rewrite Pos2Z.inj_pow in H.
  replace (Zpos (Pos.size p)) with (Zpos (Pos.size p) - 1 + 1)%Z in H by lia.
  rewrite Z.pow_add_r, Z.pow_1_r in H by lia.
  change (Zpos p~0) with (2 * Zpos p)%Z in H. lia.
Qed.

Lemma shr_fexp_keeps m e l :
  (emin prec emax <= e)%Z →
  (1 <= shr_m (shr_fexp prec emax (Zpos m) e l).1)%Z ∧
  (e <= (shr_fexp prec emax (Zpos m) e l).2)%Z.
Proof.
  unfold shr_fexp, fexp, shr, emin, prec, emax. intros He.
  assert (shr_m (shr_record_of_loc (Zpos m) l) = Zpos m) as Hm
    by (by destruct l as [|[]]).
  pose proof (digits2_pos_le m) as Hd.
  cbn [Zdigits2].
  destruct (Z.max (Z.pos (digits2_pos m) + e - 53) (3 - 1024 - 53) - e)%Z
    as [|n|n] eqn:En; cbn [fst snd]; rewrite ?Hm; try lia.
  split; [|lia].
  change 1%Z with (2 ^ 0)%Z. apply iter_shr_1_keeps; [done|].
  rewrite Hm. etrans; [|exact Hd].
  apply Z.pow_le_mono_r; lia.
Qed.

Lemma binary_round_aux_nonzero s m e l s' :
  (emin prec emax <= e)%Z →
  binary_round_aux prec emax s (Zpos m) e l ≠ S754_zero s'.
Proof.
  intros He. unfold binary_round_aux.
  destruct (shr_fexp_keeps m e l He) as [Hm He'].
  destruct (shr_fexp prec emax (Zpos m) e l) as [mrs' e'].
  cbn [fst snd] in Hm, He'.
  assert (∃ m', round_nearest_even (shr_m mrs') (loc_of_shr_record mrs')
                = Zpos m') as [m' ->].
  { unfold round_nearest_even.
    destruct (shr_m mrs') as [|p|p]; try lia.
    destruct (loc_of_shr_record mrs') as [|[]]; try (by eexists);
      try destruct (Z.even _); by eexists. }
  destruct (shr_fexp_keeps m' e' loc_Exact) as [Hm' _]; [lia|].
  destruct (shr_fexp prec emax (Zpos m') e' loc_Exact) as [mrs'' e''].
  cbn [fst snd] in Hm'.
  destruct (shr_m mrs'') as [|p|p]; try lia.
  by destruct (e'' <=? emax - prec)%Z.
Qed.

(** The float of an int other than 0 is not a zero. *)
Lemma float_of_int_nonzero z s :
  z ≠ 0%Z → float_of_int z ≠ S754_zero s.
Proof.
  intros Hz. unfold float_of_int, binary_normalize, binary_round.
  assert (∀ sx m,
    (let '(mz, ez) :=
       shl_align m 0 (fexp prec emax (Zpos (digits2_pos m) + 0)) in
     binary_round_aux prec emax sx (Zpos mz) ez loc_Exact) ≠ S754_zero s)
    as H.
  { intros sx m. unfold shl_align, fexp.
    destruct (Z.max (Z.pos (digits2_pos m) + 0 - prec) (emin prec emax) - 0)%Z
      eqn:E; apply binary_round_aux_nonzero;
      unfold emin, prec, emax in *; lia. }
  destruct z as [|p|p]; [done|apply H..].
Qed.

Lemma bind_Raise {A B} (r : result A) (k : A → result B) e :
  r ≫= k = Raise e → r = Raise e ∨ ∃ a, r = Ok a ∧ k a = Raise e.
Proof. destruct r as [a|e']; simpl; [eauto | intros [= ->]; by left]. Qed.

Lemma to_float_Raise n e : to_float n = Raise e → e = OverflowError.
Proof.
  destruct n as [z|f]; cbn [to_float]; [|discriminate].
  destruct (float_of_int z); congruence.
Qed.

Lemma to_float_nonzero n f s :
  atom_truthy (ANum n) = true → to_float n = Ok f → f ≠ S754_zero s.
Proof.
  destruct n as [z|x]; cbn [atom_truthy to_float].
  - intros Hz Hf. apply negb_true_iff, Z.eqb_neq in Hz.
    pose proof (float_of_int_nonzero z s Hz) as Hnz.
    destruct (float_of_int z); congruence.
  - intros Hx [= <-]. by destruct x.
Qed.

Lemma num_op_Raise f h a b e :
  num_op f h a b = Raise e → e = TypeError ∨ e = OverflowError.
Proof.
  destruct a as [|[x|x]|], b as [|[y|y]|]; cbn [num_op];
    try (intros [= <-]; by left); try discriminate;
    (intros H; right;
     apply bind_Raise in H as [H | (u & _ & H)];
       [by apply to_float_Raise in H|];
     apply bind_Raise in H as [H | (v & _ & H)];
       [by apply to_float_Raise in H | discriminate]).
Qed.

Lemma py_abs_num (n : num) : ∃ r : num, py_abs (ANum n) = Ok (ANum r).
Proof. destruct n; simpl; eauto. Qed.

(** A division by a number that is true raises no [ZeroDivisionError]. *)
Lemma py_div_Raise (p : num) l e :
  atom_truthy l = true →
  py_div (ANum p) l = Raise e → e = TypeError ∨ e = OverflowError.
Proof.
  intros Htrue.
  destruct l as [|q|t]; [discriminate| |destruct p; intros [= <-]; by left].
  assert (∀ x,
    (y ← to_float q;
     match y with
     | S754_zero _ => Raise ZeroDivisionError
     | _ => Ok (ANum (NFloat (fdiv x y)))
     end) = Raise e → e = OverflowError) as Hdiv.
  { intros x H. apply bind_Raise in H as [H | (y & Hy & H)];
      [by apply to_float_Raise in H|].
    destruct y; try discriminate.
    by destruct (to_float_nonzero q _ s Htrue Hy). }
  destruct p as [x|x], q as [y|y]; cbn [py_div]; intros H; right.
  - cbn [atom_truthy] in Htrue. apply negb_true_iff in Htrue.
    rewrite Htrue in H.
    destruct (fdiv (exact_float x) (exact_float y)); congruence.
  - apply bind_Raise in H as [H | (u & _ & H)];
      [by apply to_float_Raise in H | by apply (Hdiv u)].
  - by apply (Hdiv x).
  - by apply (Hdiv x).
Qed.

Lemma py_div_Ok a b c : py_div a b = Ok c → ∃ r : num, c = ANum r.
Proof.
  destruct a as [|[x|x]|], b as [|[y|y]|]; cbn [py_div]; try discriminate.
  - destruct (y =? 0)%Z; [discriminate|].
    destruct (fdiv _ _); intros [= <-]; eauto.
  - intros H. apply bind_Ok in H as (u & _ & H).
    apply bind_Ok in H as (v & _ & H).
    destruct v; try discriminate; injection H as <-; eauto.
  - intros H. apply bind_Ok in H as (u & _ & H).
    apply bind_Ok in H as (v & _ & H).
    destruct v; try discriminate; injection H as <-; eauto.
  - cbn [to_float mbind result_bind].
    destruct y; try discriminate; intros [= <-]; eauto.
Qed.

(** X13: [on_tick] raises nothing but [TypeError] and [OverflowError]
    (the last price being true, the division is by a number other than
    0), and a tick that raises leaves [_last_prices] as it was. *)
Theorem on_tick_raises_type_and_overflow_errors_only
    market_state _last_prices e :
  (on_tick market_state _last_prices).2 = Raise e →
  (e = TypeError ∨ e = OverflowError) ∧
  (on_tick market_state _last_prices).1 = _last_prices.
Proof.
  unfold on_tick.
  destruct (items_get _last_prices _) as [last_price|]; [|discriminate].
  destruct (atom_truthy last_price) eqn:Htrue; [|discriminate].
  match goal with |- context [match ?r with Ok _ => _ | Raise _ => _ end] =>
    destruct r as [logged|e'] eqn:E
  end; [discriminate|].
  intros [= <-]. split; [|done].
  apply bind_Raise in E as [E | (moved & Hmoved & E)];
    [by apply num_op_Raise in E|].
  apply num_op_Ok in Hmoved as (_ & _ & r & _ & _ & ->).
  destruct (py_abs_num r) as [distance Hd]. rewrite Hd in E.
  apply bind_Raise in E as [E | (? & [= <-] & E)]; [discriminate|].
  apply bind_Raise in E as [E | (change & Hchange & E)];
    [by apply py_div_Raise in E|].
  apply py_div_Ok in Hchange as [c ->]. discriminate.
Qed.

Lemma on_tick_raises_type_and_overflow_errors_only_witness :
  (on_tick (<["midpoint" := int (10 ^ 400)]> quiet_market)
     [(AStr "m1", flt 4 1)]).2 = Raise OverflowError ∧
  (OverflowError = TypeError ∨ OverflowError = OverflowError) ∧
  (on_tick (<["midpoint" := int (10 ^ 400)]> quiet_market)
     [(AStr "m1", flt 4 1)]).1 = [(AStr "m1", flt 4 1)].
Proof.
  split; [vm_compute; reflexivity|].
  apply (on_tick_raises_type_and_overflow_errors_only
           (<["midpoint" := int (10 ^ 400)]> quiet_market)
           [(AStr "m1", flt 4 1)]).
  vm_compute; reflexivity.
Defined.

(** ** Quotes *)

Lemma num_ltb_irrefl a : num_ltb a a = false.
Proof.
  unfold num_ltb, num_compare.
  by destruct (xcompare_refl (num_value a)) as [-> | ->].
Qed.

(** [min(a, b)] is not above [b]; it is at most [a] and at most [b],
    unless NaNs take part. *)
Lemma py_min_Ok a b c :
  py_min a b = Ok c →
  ∃ p q r : num, a = ANum p ∧ b = ANum q ∧ c = ANum r ∧
    num_ltb q r = false ∧
    (is_nan r = true ∧ is_nan p = true ∨
     num_leb r p = true ∧ (num_leb r q = true ∨ is_nan q = true)).
Proof.
  unfold py_min. intros H. apply bind_Ok in H as (lt & Hlt & H).
  apply num_cmp_Ok in Hlt as (q & p & -> & -> & ->).
  injection H as <-.
  destruct (num_ltb q p) eqn:E.
  - exists p, q, q. do 3 (split; [done|]).
    split; [apply num_ltb_irrefl|]. right.
    split; [by apply num_ltb_leb|]. left.
    apply num_leb_refl. by apply num_ltb_is_nan in E as [E _].
  - exists p, q, p. do 4 (split; [done|]).
    destruct (is_nan p) eqn:Hp; [by left | right].
    split; [by apply num_leb_refl|].
    apply num_ltb_false in E as [E | [E | E]]; auto. congruence.
Qed.

Lemma py_round_Ok a n c :
  py_round a n = Ok c → ∃ q r : num, a = ANum q ∧ c = ANum r.
Proof.
  destruct a as [|[z|f]|]; simpl; try discriminate; intros [= <-]; eauto.
Qed.

(** What one iteration of the loop of [propose_orders] appends. *)
Lemma quote_market_Ok g positions balance market_id market orders orders' :
  quote_market g positions balance market_id market orders = Ok orders' →
  ∃ (held : num) buys sells,
    current_size positions market_id = Ok (ANum held) ∧
    orders' = orders ++ buys ++ sells ∧
    (buys = [] ∨
     ∃ size unit price : num,
       buys = [limit_order market_id (dict_get market "token_id" ANone)
                 "BUY" (ANum size) (ANum price)] ∧
       ORDER_SIZE g = ANum unit ∧
       num_ltb (NInt 0) size = true ∧ num_leb size unit = true) ∧
    (sells = [] ∧ num_ltb (NInt 0) held = false ∨
     ∃ size unit price : num,
       sells = [limit_order market_id (dict_get market "token_id" ANone)
                  "SELL" (ANum size) (ANum price)] ∧
       ORDER_SIZE g = ANum unit ∧
       num_ltb (NInt 0) held = true ∧
       num_ltb held size = false ∧
       (is_nan size = true ∨
        num_leb size held = true ∧ num_leb size unit = true)).
Proof.
  unfold quote_market. intros H.
  apply bind_Ok in H as (cs & Hcs & H).
  apply bind_Ok in H as (below & _ & H).
  apply bind_Ok in H as (buy_price & _ & H).
  apply bind_Ok in H as (above & _ & H).
  apply bind_Ok in H as (sell_price & _ & H).
  apply bind_Ok in H as (width & _ & H).
  apply bind_Ok in H as (narrow & _ & H).
  apply bind_Ok in H as ([bp sp] & _ & H).
  cbv zeta in H. cbn [fst snd] in H.
  apply bind_Ok in H as (room & Hroom & H).
  apply bind_Ok in H as (mid & Hbuy & H).
  apply bind_Ok in H as (has & Hhas & H).
  apply num_cmp_Ok in Hroom as (held & limit & -> & Hlimit & ->).
  apply num_cmp_Ok in Hhas as (held' & zero & [= <-] & [= <-] & ->).
  exists held.
  assert (∃ buys, mid = orders ++ buys ∧
    (buys = [] ∨
     ∃ size unit price : num,
       buys = [limit_order market_id (dict_get market "token_id" ANone)
                 "BUY" (ANum size) (ANum price)] ∧
       ORDER_SIZE g = ANum unit ∧
       num_ltb (NInt 0) size = true ∧ num_leb size unit = true))
    as (buys & -> & Hbuys).
  { destruct (num_ltb held limit); cycle 1.
    { injection Hbuy as <-. exists []. by rewrite app_nil_r; auto. }
    apply bind_Ok in Hbuy as (headroom & _ & Hbuy).
    apply bind_Ok in Hbuy as (buy_size & Hmin & Hbuy).
    apply bind_Ok in Hbuy as (positive & Hpos & Hbuy).
    apply py_min_Ok in Hmin
      as (unit & room & size & Hunit & -> & -> & _ & Hmin).
    apply num_cmp_Ok in Hpos as (? & ? & [= <-] & [= <-] & ->).
    destruct (num_ltb (NInt 0) size) eqn:Hpos; cycle 1.
    { injection Hbuy as <-. exists []. by rewrite app_nil_r; auto. }
    apply bind_Ok in Hbuy as (cost & _ & Hbuy).
    apply bind_Ok in Hbuy as (funded & _ & Hbuy).
    destruct funded; cycle 1.
    { injection Hbuy as <-. exists []. by rewrite app_nil_r; auto. }
    apply bind_Ok in Hbuy as (price & Hprice & Hbuy).
    injection Hbuy as <-.
    destruct (py_round_Ok _ _ _ Hprice) as (? & p & _ & ->).
    eexists. split; [reflexivity|]. right.
    exists size, unit, p. do 3 (split; [done|]).
    destruct Hmin as [[Hnan _] | [Hle _]]; [|done].
    apply num_ltb_is_nan in Hpos as [_ Hpos]. congruence. }
  destruct (num_ltb (NInt 0) held) eqn:Hheld; cycle 1.
  { injection H as <-. exists buys, []. rewrite app_nil_r. auto 10. }
  apply bind_Ok in H as (sell_size & Hmin & H).
  apply bind_Ok in H as (price & Hprice & H).
  injection H as <-.
  apply py_min_Ok in Hmin
    as (unit & held' & size & Hunit & [= <-] & -> & Hlt & Hmin).
  destruct (py_round_Ok _ _ _ Hprice) as (? & p & _ & ->).
  eexists buys, _. do 2 (split; [done || by rewrite app_assoc|]).
  split; [done|]. right. exists size, unit, p. do 4 (split; [done|]).
  destruct Hmin as [[Hnan _] | [Hle [Hle' | Hnan]]]; auto.
  apply num_ltb_is_nan in Hheld as [_ Hheld]. congruence.
Qed.

(** An invariant of the orders list is kept by the loop when each
    iteration keeps it. *)
Lemma propose_loop_Forall (P : dict → Prop) g positions balance market_data :
  ∀ targets,
  (∀ market_id market orders orders',
     market_id ∈ targets →
     has_data market_data market_id = true →
     market_data_get market_data market_id = Some market →
     quote_market g positions balance market_id market orders = Ok orders' →
     Forall P orders → Forall P orders') →
  ∀ orders out,
    Forall P orders →
    propose_loop g positions balance market_data targets orders
      = Ok out →
    Forall P out.
Proof.
  induction targets as [|market_id rest IH];
    intros Hstep orders out Horders; simpl.
  - by intros [= <-].
  - assert (∀ out,
      propose_loop g positions balance market_data rest orders = Ok out →
      Forall P out) as Hskip.
    { intros out'. apply IH; [|done].
      intros ?????. apply Hstep. by right. }
    destruct (market_data_get market_data market_id) as [market|] eqn:Hget;
      [|by apply Hskip].
    destruct (bool_decide (market = ∅)) eqn:Hempty; [by apply Hskip|].
    intros H. apply bind_Ok in H as (orders' & Hquote & H).
    revert H. apply IH.
    + intros ?????. apply Hstep. by right.
    + eapply Hstep; try done; [by left|].
      unfold has_data. by rewrite Hget, Hempty.
Qed.




(** X17: every order that [propose_orders] returns is a LIMIT order for
    one of the target markets that have data; its size is a number, at
    most [ORDER_SIZE] unless it is a NaN; its side is "BUY" or "SELL", and
    the size of a BUY is above 0. *)
Theorem proposed_orders_are_bounded_limit_orders g context out o :
  propose_orders g context = Ok out →
  o ∈ out →
  o !! "type" = Some (AStr "LIMIT") ∧
  (∃ market_id,
     o !! "market_id" = Some market_id ∧
     market_id ∈ target_markets context ∧
     has_data (default ∅ (market_data context)) market_id = true) ∧
  ∃ size unit : num,
    o !! "size" = Some (ANum size) ∧
    ORDER_SIZE g = ANum unit ∧
    (num_leb size unit = true ∨ is_nan size = true) ∧
    (o !! "side" = Some (AStr "BUY") ∧ num_ltb (NInt 0) size = true ∨
     o !! "side" = Some (AStr "SELL")).
Proof.
  unfold propose_orders. intros H Ho.
  revert o Ho. apply Forall_forall.
  revert H. apply propose_loop_Forall; [|constructor].
  clear out. intros market_id market orders orders' Hin Hdata _ Hquote Horders.
  apply quote_market_Ok in Hquote
    as (held & buys & sells & Hcs & -> & Hbuys & Hsells).
  rewrite !Forall_app. split; [done|]. split.
  - destruct Hbuys as [->|(size & unit & price & -> & Hunit & Hpos & Hle)];
      [constructor|].
    constructor; [|constructor].
    destruct (limit_order_entries market_id
                (dict_get market "token_id" ANone) "BUY" (ANum size)
                (ANum price)) as (Hid & _ & Hside & Htype & Hsize & _).
    split; [done|]. split; [by exists market_id|].
    exists size, unit. do 2 (split; [done|]). split; [by left|]. by left.
  - destruct Hsells as [[-> _]|(size & unit & price & -> & Hunit & _ & _
                                 & Hle)]; [constructor|].
    constructor; [|constructor].
    destruct (limit_order_entries market_id
                (dict_get market "token_id" ANone) "SELL" (ANum size)
                (ANum price)) as (Hid & _ & Hside & Htype & Hsize & _).
    split; [done|]. split; [by exists market_id|].
    exists size, unit. do 2 (split; [done|]).
    split; [|by right]. destruct Hle as [Hnan | [_ Hle]]; auto.
Qed.

Lemma proposed_orders_are_bounded_limit_orders_witness :
  propose_orders module_globals (holding_context AttrMapping (NInt 50))
    = Ok [quiet_buy; quiet_sell] ∧
  quiet_buy ∈ [quiet_buy; quiet_sell] ∧
  quiet_buy !! "type" = Some (AStr "LIMIT") ∧
  (∃ market_id,
     quiet_buy !! "market_id" = Some market_id ∧
     market_id ∈ target_markets (holding_context AttrMapping (NInt 50)) ∧
     has_data
       (default ∅ (market_data (holding_context AttrMapping (NInt 50))))
       market_id = true) ∧
  ∃ size unit : num,
    quiet_buy !! "size" = Some (ANum size) ∧
    ORDER_SIZE module_globals = ANum unit ∧
    (num_leb size unit = true ∨ is_nan size = true) ∧
    (quiet_buy !! "side" = Some (AStr "BUY") ∧
       num_ltb (NInt 0) size = true ∨
     quiet_buy !! "side" = Some (AStr "SELL")).
Proof.
  assert (quiet_buy ∈ [quiet_buy; quiet_sell]) as Hin
    by (rewrite !elem_of_cons; tauto).
  split; [vm_compute; reflexivity|]. split; [exact Hin|].
  apply (proposed_orders_are_bounded_limit_orders module_globals
           (holding_context AttrMapping (NInt 50)) [quiet_buy; quiet_sell]
           quiet_buy); [vm_compute; reflexivity | exact Hin].
Defined.

Lemma propose_loop_length g positions balance market_data :
  ∀ targets orders out,
    propose_loop g positions balance market_data targets orders
      = Ok out →
    (List.length out ≤
       List.length orders +
       2 * List.length (filter (has_data market_data) targets))%nat.
Proof.
  induction targets as [|market_id rest IH]; intros orders out.
  - simpl. intros [= <-]. lia.
  - rewrite filter_cons. cbn [propose_loop].
    destruct (decide (has_data market_data market_id)) as [Hdata|Hdata];
      unfold has_data in Hdata;
      destruct (market_data_get market_data market_id) as [market|];
      try done; try apply IH;
      destruct (bool_decide (market = ∅));
      try done; try apply IH; try (by destruct Hdata).
    intros H. apply bind_Ok in H as (orders' & Hquote & H).
    apply IH in H.
    apply quote_market_Ok in Hquote
      as (held & buys & sells & _ & -> & Hbuys & Hsells).
    assert (List.length buys ≤ 1)%nat
      by (destruct Hbuys as [->|(?&?&?&->&_)]; simpl; lia).
    assert (List.length sells ≤ 1)%nat
      by (destruct Hsells as [[-> _]|(?&?&?&->&_)]; simpl; lia).
    rewrite !length_app in H. cbn [List.length]. lia.
Qed.

(** X19: [propose_orders] returns at most two orders for each occurrence
    of a market with data in the target list. *)
Theorem at_most_two_orders_per_market g context out :
  propose_orders g context = Ok out →
  (List.length out ≤
     2 * List.length (filter (has_data (default ∅ (market_data context)))
                        (target_markets context)))%nat.
Proof. unfold propose_orders. intros H. by apply propose_loop_length in H. Qed.

Lemma at_most_two_orders_per_market_witness :
  propose_orders module_globals (holding_context AttrMapping (NInt 50))
    = Ok [quiet_buy; quiet_sell] ∧
  (List.length [quiet_buy; quiet_sell] ≤
     2 * List.length
           (filter
              (has_data
                 (default ∅
                    (market_data (holding_context AttrMapping (NInt 50)))))
              (target_markets (holding_context AttrMapping (NInt 50)))))%nat.
Proof.
  split; [vm_compute; reflexivity|].
  apply (at_most_two_orders_per_market module_globals
           (holding_context AttrMapping (NInt 50)) [quiet_buy; quiet_sell]).
  vm_compute; reflexivity.
Defined.

Lemma propose_loop_skips g positions balance market_data :
  ∀ targets orders,
    propose_loop g positions balance market_data
      (filter (has_data market_data) targets) orders =
    propose_loop g positions balance market_data targets orders.
Proof.
  induction targets as [|market_id rest IH]; intros orders; [done|].
  rewrite filter_cons. cbn [propose_loop].
  destruct (decide (has_data market_data market_id)) as [Hdata|Hdata];
    unfold has_data in Hdata; cbn [propose_loop];
    destruct (market_data_get market_data market_id) as [market|];
    try done; try (by destruct Hdata);
    destruct (bool_decide (market = ∅)); try done; try (by destruct Hdata).
  destruct (quote_market _ _ _ _ _ _); simpl; [apply IH | done].
Qed.

(** X20: target markets without data, or whose data is an empty dict, are
    skipped: [propose_orders] answers as it does when they are left out of
    the target list. *)
Theorem markets_without_data_are_skipped g context context' :
  positions context' = positions context →
  balance context' = balance context →
  market_data context' = market_data context →
  target_markets context' =
    filter (has_data (default ∅ (market_data context)))
      (target_markets context) →
  propose_orders g context' = propose_orders g context.
Proof.
  unfold propose_orders. intros -> -> -> Htargets.
  unfold target_markets in Htargets. rewrite Htargets.
  apply propose_loop_skips.
Qed.

Lemma markets_without_data_are_skipped_witness :
  positions quiet_context = positions quiet_context_with_strangers ∧
  balance quiet_context = balance quiet_context_with_strangers ∧
  market_data quiet_context = market_data quiet_context_with_strangers ∧
  target_markets quiet_context =
    filter (has_data (default ∅ (market_data quiet_context_with_strangers)))
      (target_markets quiet_context_with_strangers) ∧
  propose_orders module_globals quiet_context =
    propose_orders module_globals quiet_context_with_strangers.
Proof.
  do 4 (split; [vm_compute; reflexivity|]).
  apply (markets_without_data_are_skipped module_globals
           quiet_context_with_strangers quiet_context);
    vm_compute; reflexivity.
Defined.

(** ** Positions held are offered *)

(** The loop only appends: the orders it starts from are returned. *)
Lemma propose_loop_keeps g positions balance market_data :
  ∀ targets orders out,
    propose_loop g positions balance market_data targets orders = Ok out →
    ∀ o, o ∈ orders → o ∈ out.
Proof.
  induction targets as [|market_id rest IH]; intros orders out; simpl.
  - by intros [= <-].
  - destruct (market_data_get market_data market_id) as [market|];
      [|apply IH].
    destruct (bool_decide (market = ∅)); [apply IH|].
    intros H o Ho. apply bind_Ok in H as (orders' & Hquote & H).
    apply (IH _ _ H).
    apply quote_market_Ok in Hquote
      as (_ & buys & sells & _ & -> & _).
    rewrite elem_of_app. by left.
Qed.

(** X24: a position held in a target market that has data is always
    offered: when [propose_orders] returns, and the size held in the market
    is above 0, the list holds a SELL for that market, of a size that
    exceeds neither the size held nor [ORDER_SIZE] unless it is a NaN,
    whatever the balance and [MAX_POSITION]. *)
Theorem held_position_is_offered g context out market_id (held : num) :
  propose_orders g context = Ok out →
  market_id ∈ target_markets context →
  has_data (default ∅ (market_data context)) market_id = true →
  current_size (default [] (positions context)) market_id
    = Ok (ANum held) →
  num_ltb (NInt 0) held = true →
  ∃ o (size unit : num),
    o ∈ out ∧
    o !! "market_id" = Some market_id ∧
    o !! "side" = Some (AStr "SELL") ∧
    o !! "size" = Some (ANum size) ∧
    ORDER_SIZE g = ANum unit ∧
    (is_nan size = true ∨
     num_leb size held = true ∧ num_leb size unit = true).
Proof.
  unfold propose_orders, target_markets.
  generalize (default [] (market_ids
                (default {| market_ids := None |} (parameters context)))).
  generalize (@nil dict).
  intros orders targets H Hin Hdata Hheld Hpos.
  revert orders H.
  induction targets as [|head rest IH]; intros orders H;
    [by apply elem_of_nil in Hin|].
  simpl in H. apply elem_of_cons in Hin as [<-|Hin].
  - unfold has_data in Hdata.
    destruct (market_data_get _ market_id) as [market|]; [|discriminate].
    destruct (bool_decide (market = ∅)); [discriminate|].
    apply bind_Ok in H as (orders' & Hquote & H).
    apply quote_market_Ok in Hquote
      as (held' & buys & sells & Hcs & -> & _ & Hsells).
    rewrite Hheld in Hcs. injection Hcs as <-.
    destruct Hsells as [[_ Hle]|(size & unit & price & -> & Hunit & _ & _
                                 & Hsize)]; [congruence|].
    destruct (limit_order_entries market_id
                (dict_get market "token_id" ANone) "SELL" (ANum size)
                (ANum price)) as (Hid & _ & Hside & _ & Hsz & _).
    eexists _, size, unit. split; [|done].
    apply (propose_loop_keeps _ _ _ _ _ _ _ H).
    rewrite !elem_of_app, list_elem_of_singleton. auto.
  - destruct (market_data_get _ head) as [market|]; [|by apply (IH Hin orders)].
    destruct (bool_decide (market = ∅)); [by apply (IH Hin orders)|].
    apply bind_Ok in H as (orders' & _ & H). by apply (IH Hin orders').
Qed.

Lemma held_position_is_offered_witness :
  propose_orders module_globals
    (with_balance (Some (int 0)) (holding_context AttrMapping (NInt 50)))
    = Ok [quiet_sell] ∧
  AStr "m1" ∈ target_markets
    (with_balance (Some (int 0)) (holding_context AttrMapping (NInt 50))) ∧
  has_data
    (default ∅ (market_data
       (with_balance (Some (int 0)) (holding_context AttrMapping (NInt 50)))))
    (AStr "m1") = true ∧
  current_size
    (default [] (positions
       (with_balance (Some (int 0)) (holding_context AttrMapping (NInt 50)))))
    (AStr "m1") = Ok (int 50) ∧
  num_ltb (NInt 0) (NInt 50) = true ∧
  ∃ o (size unit : num),
    o ∈ [quiet_sell] ∧
    o !! "market_id" = Some (AStr "m1") ∧
    o !! "side" = Some (AStr "SELL") ∧
    o !! "size" = Some (ANum size) ∧
    ORDER_SIZE module_globals = ANum unit ∧
    (is_nan size = true ∨
     num_leb size (NInt 50) = true ∧ num_leb size unit = true).
Proof.
  assert (AStr "m1" ∈ target_markets
            (with_balance (Some (int 0))
               (holding_context AttrMapping (NInt 50))))
    as Hin by (apply list_elem_of_singleton; reflexivity).
  split; [vm_compute; reflexivity|]. split; [exact Hin|].
  do 3 (split; [vm_compute; reflexivity|]).
  apply (held_position_is_offered module_globals
           (with_balance (Some (int 0))
              (holding_context AttrMapping (NInt 50)))
           [quiet_sell] (AStr "m1") (NInt 50));
    [vm_compute; reflexivity | exact Hin | ..]; vm_compute; reflexivity.
Defined.

(** ** Inputs that raise nothing *)

Lemma is_float_has_float a : is_float a → has_float a.
Proof. intros [f ->]. by exists (NFloat f), f. Qed.

Lemma has_float_is_num a : has_float a → is_num a.
Proof. intros (n & f & -> & _). by exists n. Qed.

Lemma has_float_small (z : Z) :
  (∃ f, to_float (NInt z) = Ok f) → has_float (int z).
Proof. intros [f Hf]. by exists (NInt z), f. Qed.

(** The size held is the int 0 or a float when the positions are
    readable. *)
Lemma current_size_readable positions market_id :
  Forall readable_position positions →
  ∃ held, current_size positions market_id = Ok held ∧
          (held = int 0 ∨ is_float held).
Proof.
  unfold current_size.
  induction 1 as [|pos rest (Hshape & [m Hm] & Hsize) _ IH]; simpl.
  - exists (int 0). auto.
  - unfold getattr. rewrite Hshape, Hm. simpl.
    destruct (py_eq m market_id); [|exact IH]. simpl.
    unfold truthy, obj_get. rewrite Hshape.
    rewrite bool_decide_eq_false_2.
    + simpl. unfold dict_get.
      destruct Hsize as [-> | (size & -> & Hsize)]; simpl; eauto.
    + intros Hempty. rewrite Hempty in Hm. by rewrite lookup_empty in Hm.
Qed.

(** Arithmetic raises nothing when one operand is a float and the other
    has one. *)
Lemma op_float_l zop fop a b :
  is_float a → has_float b →
  ∃ f, num_op zop fop a b = Ok (ANum (NFloat f)).
Proof.
  intros [x ->] (n & y & -> & Hy). cbn [num_op].
  destruct n as [z|y']; cbn [to_float mbind result_bind] in *;
    [rewrite Hy|]; simpl; eauto.
Qed.

Lemma op_float_r zop fop a b :
  has_float a → is_float b →
  ∃ f, num_op zop fop a b = Ok (ANum (NFloat f)).
Proof.
  intros (n & x & -> & Hx) [y ->].
  destruct n as [z|x']; cbn [num_op]; [rewrite Hx|]; simpl; eauto.
Qed.

Lemma has_float_0 : has_float (int 0).
Proof. apply has_float_small. by eexists. Qed.

Lemma has_float_1 : has_float (int 1).
Proof. apply has_float_small. vm_compute. by eexists. Qed.


Lemma sub_held zop fop a held :
  has_float a → held = int 0 ∨ is_float held →
  (∀ z, zop z 0%Z = z) →
  ∃ c, num_op zop fop a held = Ok c ∧ has_float c.
Proof.
  intros Ha [-> | Hheld] Hz.
  - destruct Ha as ([z|x] & f & -> & Hf).
    + cbn [num_op]. rewrite Hz. eexists. split; [done|]. by exists (NInt z), f.
    + destruct (op_float_l zop fop (ANum (NFloat x)) (int 0)) as [c Hc];
        [by eexists | apply has_float_0 |].
      rewrite Hc. eexists. split; [done|]. apply is_float_has_float.
      by eexists.
  - destruct (op_float_r zop fop a held Ha Hheld) as [c Hc].
    rewrite Hc. eexists. split; [done|]. apply is_float_has_float.
    by eexists.
Qed.

Lemma num_cmp_num f a b :
  is_num a → is_num b → ∃ r, num_cmp f a b = Ok r.
Proof. intros [p ->] [q ->]. simpl. eauto. Qed.



Lemma held_has_float held : held = int 0 ∨ is_float held → has_float held.
Proof. intros [-> | H]; [apply has_float_0 | by apply is_float_has_float]. Qed.

Lemma py_min_has_float a b :
  has_float a → has_float b → ∃ c, py_min a b = Ok c ∧ has_float c.
Proof.
  intros Ha Hb. unfold py_min.
  destruct (num_cmp_num num_ltb b a) as [lt Hlt];
    [by apply has_float_is_num..|].
  unfold py_lt. rewrite Hlt. cbn [mbind result_bind].
  destruct lt; eauto.
Qed.

Lemma py_round_float a n : is_float a → ∃ c, py_round a n = Ok c.
Proof. intros [f ->]. simpl. eauto. Qed.

Lemma py_div_by_2 a :
  is_float a → ∃ f, py_div a (int 2) = Ok (ANum (NFloat f)).
Proof.
  intros [x ->]. cbn [py_div to_float mbind result_bind].
  destruct (float_of_int 2) eqn:E; try (vm_compute in E; discriminate).
  cbn [mbind result_bind]. eauto.
Qed.

(** One iteration of the loop of [propose_orders] raises nothing. *)
Lemma quote_market_readable g positions balance market_id market orders :
  float_globals g →
  Forall readable_position positions →
  is_num balance →
  float_market market →
  ∃ orders',
    quote_market g positions balance market_id market orders = Ok orders'.
Proof.
  intros (Hsp & Hunit & Hmax) Hpos Hbalance (Hmid & Hspread).
  destruct (current_size_readable _ market_id Hpos)
    as (held & Hheld & Hshape).
  pose proof (held_has_float _ Hshape) as Hhf.
  unfold quote_market, py_add, py_sub, py_mul, py_lt, py_gt, py_ge.
  rewrite Hheld. cbn [mbind result_bind].
  destruct (op_float_r Z.sub fsub (int 1) _ has_float_1 Hsp) as [below ->].
  cbn [mbind result_bind].
  destruct (op_float_l Z.mul fmul _ (ANum (NFloat below)) Hmid)
    as [buy_price ->]; [apply is_float_has_float; by eexists|].
  cbn [mbind result_bind].
  destruct (op_float_r Z.add fadd (int 1) _ has_float_1 Hsp) as [above ->].
  cbn [mbind result_bind].
  destruct (op_float_l Z.mul fmul _ (ANum (NFloat above)) Hmid)
    as [sell_price ->]; [apply is_float_has_float; by eexists|].
  cbn [mbind result_bind num_op to_float].
  destruct (num_cmp_num num_ltb
              (ANum (NFloat (fsub sell_price buy_price)))
              (dict_get market "spread" (flt 1 1))) as [narrow Hnarrow];
    [by eexists | by apply has_float_is_num, is_float_has_float|].
  rewrite Hnarrow. cbn [mbind result_bind].
  assert (∃ bid ask : spec_float,
    (if narrow
     then
       half ← py_div (dict_get market "spread" (flt 1 1)) (int 2);
       buy_price0 ← num_op Z.sub fsub
                       (dict_get market "midpoint" (flt 5 1)) half;
       half0 ← py_div (dict_get market "spread" (flt 1 1)) (int 2);
       sell_price0 ← num_op Z.add fadd
                        (dict_get market "midpoint" (flt 5 1)) half0;
       Ok (buy_price0, sell_price0)
     else Ok (ANum (NFloat buy_price), ANum (NFloat sell_price)))
    = Ok (ANum (NFloat bid), ANum (NFloat ask))) as (bid & ask & ->).
  { destruct narrow; [|eauto].
    destruct (py_div_by_2 _ Hspread) as [half ->]. cbn [mbind result_bind].
    destruct (op_float_l Z.sub fsub _ (ANum (NFloat half)) Hmid) as [b ->];
      [apply is_float_has_float; by eexists|].
    destruct (op_float_l Z.add fadd _ (ANum (NFloat half)) Hmid) as [a ->];
      [apply is_float_has_float; by eexists|].
    cbn [mbind result_bind]. eauto. }
  cbn [mbind result_bind fst snd].
  destruct (num_cmp_num num_ltb held (MAX_POSITION g)) as [room Hroom];
    [by apply has_float_is_num..|].
  rewrite Hroom. cbn [mbind result_bind].
  assert (∃ mid,
    (if room
     then
       headroom ← num_op Z.sub fsub (MAX_POSITION g) held;
       buy_size ← py_min (ORDER_SIZE g) headroom;
       positive ← num_cmp (λ p q, num_ltb q p) buy_size (int 0);
       if positive : bool
       then
         cost ← num_op Z.mul fmul buy_size (ANum (NFloat bid));
         funded ← num_cmp (λ p q, num_leb q p) balance cost;
         if funded : bool
         then
           price ← py_round (ANum (NFloat bid)) 4;
           Ok (orders ++
               [limit_order market_id (dict_get market "token_id" ANone)
                  "BUY" buy_size price])
         else Ok orders
       else Ok orders
     else Ok orders) = Ok mid) as [mid ->].
  { destruct room; [|eauto].
    destruct (sub_held Z.sub fsub _ held Hmax Hshape Z.sub_0_r)
      as (headroom & -> & Hroomf).
    cbn [mbind result_bind].
    destruct (py_min_has_float _ _ Hunit Hroomf) as (buy_size & -> & Hsize).
    cbn [mbind result_bind].
    destruct (num_cmp_num (λ p q, num_ltb q p) buy_size (int 0))
      as [positive Hpositive]; [by apply has_float_is_num | by eexists|].
    rewrite Hpositive. cbn [mbind result_bind].
    destruct positive; [|eauto].
    destruct (op_float_r Z.mul fmul buy_size (ANum (NFloat bid)) Hsize)
      as [cost ->]; [by eexists|].
    cbn [mbind result_bind].
    destruct (num_cmp_num (λ p q, num_leb q p) balance
                (ANum (NFloat cost)) Hbalance) as [funded Hfunded];
      [by eexists|].
    rewrite Hfunded. cbn [mbind result_bind].
    destruct funded; [|eauto].
    cbn [py_round mbind result_bind]. eauto. }
  cbn [mbind result_bind].
  destruct (num_cmp_num (λ p q, num_ltb q p) held (int 0))
    as [has Hhas]; [by apply has_float_is_num | by eexists|].
  rewrite Hhas. cbn [mbind result_bind].
  destruct has; [|eauto].
  destruct (py_min_has_float _ _ Hunit Hhf) as (sell_size & -> & _).
  cbn [py_round mbind result_bind]. eauto.
Qed.

Lemma propose_loop_readable g positions balance market_data :
  float_globals g →
  Forall readable_position positions →
  is_num balance →
  map_Forall (λ _ market, float_market market) market_data →
  ∀ targets orders,
    ∃ out,
      propose_loop g positions balance market_data targets orders = Ok out.
Proof.
  intros Hg Hpos Hbalance Hdata.
  induction targets as [|market_id rest IH]; intros orders; simpl; [eauto|].
  destruct (market_data_get market_data market_id) as [market|] eqn:Hget;
    [|apply IH].
  destruct (bool_decide (market = ∅)); [apply IH|].
  assert (float_market market) as Hmarket.
  { destruct market_id; try discriminate. simpl in Hget.
    by apply (Hdata _ _ Hget). }
  destruct (quote_market_readable g positions balance market_id market orders)
    as [orders' ->]; try done.
  simpl. apply IH.
Qed.

(** X23: [propose_orders] raises nothing, and returns a list of orders,
    whenever [SPREAD_PERCENT] is a float, [ORDER_SIZE] and [MAX_POSITION]
    are floats or ints that are not beyond the largest float, the balance
    is a number, every position can be read by both [get_position] and
    [get] and has a float for its size, and the midpoint and the spread of
    every market, where present, are floats: no conversion overflows and
    no division is by zero. *)
Theorem propose_orders_answers_readable_inputs g context :
  float_globals g →
  Forall readable_position (default [] (positions context)) →
  is_num (default (int 0) (balance context)) →
  map_Forall (λ _ market, float_market market)
    (default ∅ (market_data context)) →
  ∃ out, propose_orders g context = Ok out.
Proof.
  intros Hg Hpos Hbalance Hdata. unfold propose_orders.
  by apply propose_loop_readable.
Qed.

Lemma propose_orders_answers_readable_inputs_witness :
  float_globals module_globals ∧
  Forall readable_position
    (default [] (positions (holding_context AttrMapping
                              (NFloat (decimal 3 2))))) ∧
  is_num
    (default (int 0)
       (balance (holding_context AttrMapping (NFloat (decimal 3 2))))) ∧
  map_Forall (λ _ market, float_market market)
    (default ∅
       (market_data (holding_context AttrMapping (NFloat (decimal 3 2))))) ∧
  ∃ out,
    propose_orders module_globals
      (holding_context AttrMapping (NFloat (decimal 3 2))) = Ok out.
Proof.
  assert (float_globals module_globals) as Hg.
  { split; [by eexists|].
    split; apply has_float_small; vm_compute; by eexists. }
  assert (Forall readable_position
            (default [] (positions (holding_context AttrMapping
                                      (NFloat (decimal 3 2)))))) as Hpos.
  { constructor; [|constructor]. split; [reflexivity|]. split.
    - exists (AStr "m1"). vm_compute; reflexivity.
    - right. exists (flt 3 2). split; [vm_compute; reflexivity|].
      by eexists. }
  assert (is_num
            (default (int 0)
               (balance (holding_context AttrMapping
                           (NFloat (decimal 3 2)))))) as Hbalance
    by (by eexists).
  assert (map_Forall (λ _ market, float_market market)
            (default ∅
               (market_data (holding_context AttrMapping
                               (NFloat (decimal 3 2))))))
    as Hdata.
  { simpl. apply map_Forall_insert_2; [|apply map_Forall_empty].
    split; eexists; vm_compute; reflexivity. }
  do 4 (split; [assumption|]).
  exact (propose_orders_answers_readable_inputs module_globals
           (holding_context AttrMapping (NFloat (decimal 3 2)))
           Hg Hpos Hbalance Hdata).
Defined.
